(** * The analysis dashboard client: job polling, derived statistics,
      job submission, pull-request actions and sign-out.

    A shallow embedding of the page components under [frontend/pages]
    (results.js, dashboard.js) and of the OAuth callback page.  React state
    cells become record fields, a state setter call becomes a constructor of
    a [Call] type that is interpreted on the record, and an [async] function
    is split at its [await] into the part that runs before the request is
    issued and the continuation that runs when the request settles. *)

From stdpp Require Import gmap strings list pretty.
From Stdlib Require Import ZArith Lia.

Set Warnings "-register-all".

Local Open Scope string_scope.
Local Open Scope Z_scope.

(** ** JavaScript values

    Strings are byte strings holding the UTF-8 encoding of the text; numbers
    are restricted to integers (every number the modelled code computes on is
    one of 0, 10, .., 90, 100, 429 or an HTTP status). *)

Module Js.

Inductive JsVal : Type :=
| JUndefined
| JNull
| JBool (b : bool)
| JNum (z : Z)
| JStr (s : string)
| JArray (elems : list JsVal)
| JObject (props : list (string * JsVal)).

(** ToBoolean: what [!v], [v || w] and [if (v)] test. *)
Definition truthy (v : JsVal) : bool :=
  match v with
  | JUndefined | JNull => false
  | JBool b => b
  | JNum z => negb (z =? 0)
  | JStr s => negb (String.eqb s "")
  | JArray _ | JObject _ => true
  end.

(** [a || b] *)
Definition or_else (a b : JsVal) : JsVal := if truthy a then a else b.

(** [v === 'lit'] for a string literal. *)
Definition strict_eq_str (v : JsVal) (lit : string) : bool :=
  match v with
  | JStr s => String.eqb s lit
  | _ => false
  end.

(** [v === n] for a number literal. *)
Definition strict_eq_num (v : JsVal) (n : Z) : bool :=
  match v with
  | JNum z => z =? n
  | _ => false
  end.

(** [typeof v === "object"]: null, arrays and plain objects. *)
Definition typeof_object (v : JsVal) : bool :=
  match v with JNull | JArray _ | JObject _ => true | _ => false end.

Fixpoint assoc (k : string) (props : list (string * JsVal)) : JsVal :=
  match props with
  | [] => JUndefined
  | (k', v) :: rest => if String.eqb k k' then v else assoc k rest
  end.

(** [v?.k]: undefined on a nullish receiver, the property of an object,
    and undefined for a property that primitives and arrays do not have. *)
Definition opt_get (v : JsVal) (k : string) : JsVal :=
  match v with
  | JObject props => assoc k props
  | _ => JUndefined
  end.

(** [`${v}`]: the ToString conversion of a template literal. *)
Fixpoint ToString (v : JsVal) : string :=
  match v with
  | JUndefined => "undefined"
  | JNull => "null"
  | JBool true => "true"
  | JBool false => "false"
  | JNum z => pretty z
  | JStr s => s
  | JArray elems =>
      String.concat ","
        (List.map (fun e => match e with
                            | JUndefined | JNull => ""
                            | _ => ToString e
                            end) elems)
  | JObject _ => "[object Object]"
  end.

(** A string of the option type used for values read from the browser
    storage ([null] or a string): [!v]. *)
Definition falsy_str (v : option string) : bool :=
  match v with
  | None => true
  | Some s => String.eqb s ""
  end.

(** [s.includes(sub)] *)
Fixpoint is_prefix (p s : string) : bool :=
  match p, s with
  | EmptyString, _ => true
  | String a p', String b s' => if Ascii.eqb a b then is_prefix p' s' else false
  | String _ _, EmptyString => false
  end.

Fixpoint includes (s sub : string) : bool :=
  if is_prefix sub s then true
  else match s with
       | EmptyString => false
       | String _ s' => includes s' sub
       end.

(** [s.trim()].  WhiteSpace and LineTerminator code points, recognised in
    the UTF-8 encoding of the string: U+0009..U+000D and U+0020 are single
    bytes, U+00A0 is C2 A0, U+1680 is E1 9A 80, U+2000..U+200A, U+2028,
    U+2029 and U+202F are E2 80 xx, U+205F is E2 81 9F, U+3000 is E3 80 80
    and U+FEFF is EF BB BF. *)
Definition codes (s : string) : list N :=
  List.map Ascii.N_of_ascii (String.list_ascii_of_string s).

Definition of_codes (l : list N) : string :=
  String.string_of_list_ascii (List.map Ascii.ascii_of_N l).

Definition ascii_space (c : N) : bool :=
  ((9 <=? c) && (c <=? 13) || (c =? 32))%N.

Definition e2_80_space (c : N) : bool :=
  ((128 <=? c) && (c <=? 138) || (c =? 168) || (c =? 169) || (c =? 175))%N.

(** The rest of the bytes after one leading white space character. *)
Definition drop_space (l : list N) : option (list N) :=
  match l with
  | c :: r1 =>
      if ascii_space c then Some r1
      else match r1 with
           | c1 :: r2 =>
               if ((c =? 194) && (c1 =? 160))%N then Some r2
               else match r2 with
                    | c2 :: r3 =>
                        if ((c =? 225) && (c1 =? 154) && (c2 =? 128)
                            || (c =? 226) && (c1 =? 128) && e2_80_space c2
                            || (c =? 226) && (c1 =? 129) && (c2 =? 159)
                            || (c =? 227) && (c1 =? 128) && (c2 =? 128)
                            || (c =? 239) && (c1 =? 187) && (c2 =? 191))%N
                        then Some r3 else None
                    | [] => None
                    end
           | [] => None
           end
  | [] => None
  end.

(** The same on the reversed byte sequence, for the trailing end. *)
Definition drop_space_rev (l : list N) : option (list N) :=
  match l with
  | c :: r1 =>
      if ascii_space c then Some r1
      else match r1 with
           | c1 :: r2 =>
               if ((c1 =? 194) && (c =? 160))%N then Some r2
               else match r2 with
                    | c2 :: r3 =>
                        if ((c2 =? 225) && (c1 =? 154) && (c =? 128)
                            || (c2 =? 226) && (c1 =? 128) && e2_80_space c
                            || (c2 =? 226) && (c1 =? 129) && (c =? 159)
                            || (c2 =? 227) && (c1 =? 128) && (c =? 128)
                            || (c2 =? 239) && (c1 =? 187) && (c =? 191))%N
                        then Some r3 else None
                    | [] => None
                    end
           | [] => None
           end
  | [] => None
  end.

Fixpoint drop_while (step : list N -> option (list N)) (fuel : nat)
    (l : list N) : list N :=
  match fuel with
  | O => l
  | S fuel' =>
      match step l with
      | Some r => drop_while step fuel' r
      | None => l
      end
  end.

Definition trim (s : string) : string :=
  let front := drop_while drop_space (String.length s) (codes s) in
  of_codes (rev (drop_while drop_space_rev (String.length s) (rev front))).

End Js.

Import Js.

(** ** The data model of the backend's answers *)

Module Api.

Record Issue := {
  title : JsVal;
  severity : JsVal
}.

Record Enhancement := {
  suggestion : JsVal;
  type : JsVal
}.

Record FileSuggestion := {
  file : JsVal;
  priority : JsVal
}.

(** The body of [GET /api/results/{job_id}].  An array-valued field is
    [None] when the key is absent from the object (the case in which a
    destructuring default or [?.] applies). *)
Record AnalysisResult := {
  status : JsVal;
  error : JsVal;
  files : option (list JsVal);
  issues : option (list Issue);
  enhancements : option (list Enhancement);
  file_suggestions : option (list FileSuggestion);
  total_lines : JsVal;
  patch : JsVal;
  enhancement_patch : JsVal;
  deployment_patch : JsVal
}.

(** What [axios] throws: [response] is present when the server answered
    with a failure status, [message] is the error's own text. *)
Record ErrorResponse := {
  http_status : JsVal;
  data : JsVal
}.

Record AxiosError := {
  response : option ErrorResponse;
  message : JsVal
}.

(** [err.response?.data?.detail] *)
Definition response_detail (err : AxiosError) : JsVal :=
  match response err with
  | None => JUndefined
  | Some r => opt_get (data r) "detail"
  end.

(** [err.response?.status] *)
Definition response_status (err : AxiosError) : JsVal :=
  match response err with
  | None => JUndefined
  | Some r => http_status r
  end.

End Api.

(** [const { xs = [] } = obj]: the default of a destructured key. *)
Definition default_empty {A} (xs : option (list A)) : list A :=
  match xs with
  | Some l => l
  | None => []
  end.

(** Counting by a propositional criterion, independent of [filter]. *)
Inductive Count {A} (P : A -> Prop) : list A -> nat -> Prop :=
| Count_nil : Count P [] 0%nat
| Count_hit x l n : P x -> Count P l n -> Count P (x :: l) (S n)
| Count_miss x l n : ~ P x -> Count P l n -> Count P (x :: l) n.

(** ** The browser: persistent storage and the router *)

Record Browser := {
  localStorage : gmap string string;
  location : string
}.

Definition removeItem (k : string) (b : Browser) : Browser :=
  {| localStorage := delete k (localStorage b); location := location b |}.

Definition setItem (k v : string) (b : Browser) : Browser :=
  {| localStorage := <[k := v]> (localStorage b); location := location b |}.

Definition getItem (k : string) (b : Browser) : option string :=
  localStorage b !! k.

Definition clear (b : Browser) : Browser :=
  {| localStorage := ∅; location := location b |}.

Definition router_push (url : string) (b : Browser) : Browser :=
  {| localStorage := localStorage b; location := url |}.

(** ** The results page (results.js) *)

Module Results.

Record State := {
  job_id : option string;            (* router.query.job_id *)
  result : option Api.AnalysisResult;
  loading : bool;
  error : JsVal;
  creatingPR : bool;
  creatingEnhancementPR : bool;
  creatingDeploymentPR : bool;
  token : option string;
  userName : string;
  isMounted : bool;
  autoRefresh : bool;
  analysisProgress : Z
}.

(** The [useState] initial values. *)
Definition initial (jid : option string) : State :=
  {| job_id := jid; result := None; loading := true; error := JStr "";
     creatingPR := false; creatingEnhancementPR := false;
     creatingDeploymentPR := false; token := None; userName := "User";
     isMounted := false; autoRefresh := true; analysisProgress := 0 |}.

(** The body of the two-field POST requests of the page. *)
Record PrRequest := {
  req_job_id : option string;
  access_token : option string
}.

(** Everything a handler of the page calls, in program order: the state
    setters, the timer, the network and the two window functions. *)
Inductive Call : Type :=
| setResult (r : Api.AnalysisResult)
| setLoading (b : bool)
| setError (v : JsVal)
| setCreatingPR (b : bool)
| setCreatingEnhancementPR (b : bool)
| setCreatingDeploymentPR (b : bool)
| setToken (t : option string)
| setUserName (n : string)
| setIsMounted (b : bool)
| setAutoRefresh (b : bool)
| setAnalysisProgress (p : Z)
| setAnalysisProgress_prev (f : Z -> Z)   (* the updater form *)
| setTimeout_fetchResults (ms : Z)
| axios_get (url : string)
| axios_post (url : string) (body : PrRequest)
| alert (msg : string)
| window_open (url : JsVal)
| push (url : string).

Definition apply_call (st : State) (c : Call) : State :=
  match c with
  | setResult r =>
      {| job_id := job_id st; result := Some r; loading := loading st;
         error := error st; creatingPR := creatingPR st;
         creatingEnhancementPR := creatingEnhancementPR st;
         creatingDeploymentPR := creatingDeploymentPR st; token := token st;
         userName := userName st; isMounted := isMounted st;
         autoRefresh := autoRefresh st;
         analysisProgress := analysisProgress st |}
  | setLoading b =>
      {| job_id := job_id st; result := result st; loading := b;
         error := error st; creatingPR := creatingPR st;
         creatingEnhancementPR := creatingEnhancementPR st;
         creatingDeploymentPR := creatingDeploymentPR st; token := token st;
         userName := userName st; isMounted := isMounted st;
         autoRefresh := autoRefresh st;
         analysisProgress := analysisProgress st |}
  | setError v =>
      {| job_id := job_id st; result := result st; loading := loading st;
         error := v; creatingPR := creatingPR st;
         creatingEnhancementPR := creatingEnhancementPR st;
         creatingDeploymentPR := creatingDeploymentPR st; token := token st;
         userName := userName st; isMounted := isMounted st;
         autoRefresh := autoRefresh st;
         analysisProgress := analysisProgress st |}
  | setCreatingPR b =>
      {| job_id := job_id st; result := result st; loading := loading st;
         error := error st; creatingPR := b;
         creatingEnhancementPR := creatingEnhancementPR st;
         creatingDeploymentPR := creatingDeploymentPR st; token := token st;
         userName := userName st; isMounted := isMounted st;
         autoRefresh := autoRefresh st;
         analysisProgress := analysisProgress st |}
  | setCreatingEnhancementPR b =>
      {| job_id := job_id st; result := result st; loading := loading st;
         error := error st; creatingPR := creatingPR st;
         creatingEnhancementPR := b;
         creatingDeploymentPR := creatingDeploymentPR st; token := token st;
         userName := userName st; isMounted := isMounted st;
         autoRefresh := autoRefresh st;
         analysisProgress := analysisProgress st |}
  | setCreatingDeploymentPR b =>
      {| job_id := job_id st; result := result st; loading := loading st;
         error := error st; creatingPR := creatingPR st;
         creatingEnhancementPR := creatingEnhancementPR st;
         creatingDeploymentPR := b; token := token st;
         userName := userName st; isMounted := isMounted st;
         autoRefresh := autoRefresh st;
         analysisProgress := analysisProgress st |}
  | setToken t =>
      {| job_id := job_id st; result := result st; loading := loading st;
         error := error st; creatingPR := creatingPR st;
         creatingEnhancementPR := creatingEnhancementPR st;
         creatingDeploymentPR := creatingDeploymentPR st; token := t;
         userName := userName st; isMounted := isMounted st;
         autoRefresh := autoRefresh st;
         analysisProgress := analysisProgress st |}
  | setUserName n =>
      {| job_id := job_id st; result := result st; loading := loading st;
         error := error st; creatingPR := creatingPR st;
         creatingEnhancementPR := creatingEnhancementPR st;
         creatingDeploymentPR := creatingDeploymentPR st; token := token st;
         userName := n; isMounted := isMounted st;
         autoRefresh := autoRefresh st;
         analysisProgress := analysisProgress st |}
  | setIsMounted b =>
      {| job_id := job_id st; result := result st; loading := loading st;
         error := error st; creatingPR := creatingPR st;
         creatingEnhancementPR := creatingEnhancementPR st;
         creatingDeploymentPR := creatingDeploymentPR st; token := token st;
         userName := userName st; isMounted := b;
         autoRefresh := autoRefresh st;
         analysisProgress := analysisProgress st |}
  | setAutoRefresh b =>
      {| job_id := job_id st; result := result st; loading := loading st;
         error := error st; creatingPR := creatingPR st;
         creatingEnhancementPR := creatingEnhancementPR st;
         creatingDeploymentPR := creatingDeploymentPR st; token := token st;
         userName := userName st; isMounted := isMounted st;
         autoRefresh := b;
         analysisProgress := analysisProgress st |}
  | setAnalysisProgress p =>
      {| job_id := job_id st; result := result st; loading := loading st;
         error := error st; creatingPR := creatingPR st;
         creatingEnhancementPR := creatingEnhancementPR st;
         creatingDeploymentPR := creatingDeploymentPR st; token := token st;
         userName := userName st; isMounted := isMounted st;
         autoRefresh := autoRefresh st;
         analysisProgress := p |}
  | setAnalysisProgress_prev f =>
      {| job_id := job_id st; result := result st; loading := loading st;
         error := error st; creatingPR := creatingPR st;
         creatingEnhancementPR := creatingEnhancementPR st;
         creatingDeploymentPR := creatingDeploymentPR st; token := token st;
         userName := userName st; isMounted := isMounted st;
         autoRefresh := autoRefresh st;
         analysisProgress := f (analysisProgress st) |}
  | setTimeout_fetchResults _ | axios_get _ | axios_post _ _
  | alert _ | window_open _ | push _ => st
  end.

(** The state after a sequence of calls. *)
Definition run (cs : list Call) (st : State) : State :=
  fold_left apply_call cs st.

Definition is_setTimeout (c : Call) : bool :=
  match c with setTimeout_fetchResults _ => true | _ => false end.

Definition is_setError (c : Call) : bool :=
  match c with setError _ => true | _ => false end.

Definition is_network (c : Call) : bool :=
  match c with axios_get _ | axios_post _ _ => true | _ => false end.


(** How the awaited [axios.get] of a tick settles. *)
Inductive Outcome : Type :=
| Resolved (data : Api.AnalysisResult)
| Rejected (err : Api.AxiosError).

Section WithApiUrl.

(** [process.env.NEXT_PUBLIC_API_URL] *)
Variable NEXT_PUBLIC_API_URL : string.

(** [fetchResults], up to its [await]. *)
Definition fetchResults_request (jid : string) : list Call :=
  [ setLoading true;
    axios_get (NEXT_PUBLIC_API_URL +:+ "/api/results/" +:+ jid) ].

(** [fetchResults], from the point where the request has settled.  The
    closure reads the [autoRefresh] of the render that created it. *)
Definition fetchResults_settled (autoRefresh : bool) (o : Outcome) : list Call :=
  match o with
  | Resolved data =>
      if strict_eq_str (Api.status data) "running" then
        setAnalysisProgress_prev (fun prev => Z.min (prev + 10) 90)
          :: (if autoRefresh then [ setTimeout_fetchResults 2000 ] else [])
      else if strict_eq_str (Api.status data) "error" then
        [ setError (JStr ("Analysis failed: " +:+ ToString (Api.error data)));
          setLoading false;
          setAnalysisProgress 0 ]
      else
        [ setResult data;
          setLoading false;
          setAnalysisProgress 100 ]
  | Rejected err =>
      [ setError (or_else (or_else (Api.response_detail err) (Api.message err))
                          (JStr "Failed to fetch results"));
        setLoading false;
        setAnalysisProgress 0 ]
  end.

(** One tick: a call of [fetchResults] from its start to its end. *)
Definition tick (jid : string) (autoRefresh : bool) (o : Outcome) : list Call :=
  fetchResults_request jid ++ fetchResults_settled autoRefresh o.

Definition reschedules (cs : list Call) : bool := existsb is_setTimeout cs.

(** The ticks of one polling run, given how the successive requests
    settle: the next outcome is consumed only if the tick before it armed
    the timer. *)
Fixpoint poll (jid : string) (autoRefresh : bool) (outs : list Outcome)
  : list (list Call) :=
  match outs with
  | [] => []
  | o :: rest =>
      let t := tick jid autoRefresh o in
      t :: (if reschedules t then poll jid autoRefresh rest else [])
  end.

(** The polling effect: guarded by [job_id] and [isMounted], it starts
    [fetchResults] with the [autoRefresh] of the current render. *)
Definition pollingEffect (st : State) (outs : list Outcome) : list (list Call) :=
  match job_id st with
  | Some jid =>
      if negb (String.eqb jid "") && isMounted st
      then poll jid (autoRefresh st) outs
      else []
  | None => []
  end.

(** The cleanup function the polling effect returns. *)
Definition cleanup : list Call := [ setAutoRefresh false ].

(** The first effect of the page: read the session from the storage. *)
Definition mountEffect (b : Browser) : list Call :=
  let storedToken := getItem "access_token" b in
  let storedName :=
    match getItem "user_name" b with
    | Some n => if String.eqb n "" then "User" else n
    | None => "User"
    end in
  [ setToken storedToken; setUserName storedName; setIsMounted true ]
  ++ (if falsy_str storedToken then [ push "/" ] else []).

(** [result?.f] for a field [f] of the result. *)
Definition result_field (f : Api.AnalysisResult -> JsVal) (st : State) : JsVal :=
  match result st with
  | Some r => f r
  | None => JUndefined
  end.

Definition newline : string := String (Ascii.ascii_of_nat 10) EmptyString.

(** How the awaited [axios.post] of an action settles; a delivered body is
    an object, given by its properties. *)
Inductive PostOutcome : Type :=
| PostResolved (body : list (string * JsVal))
| PostRejected (err : Api.AxiosError).

Definition createPR (st : State) : list Call :=
  if falsy_str (token st) then
    [ setError (JStr "Not authenticated. Please login first.") ]
  else if negb (truthy (result_field Api.patch st)) then
    [ setError (JStr "No patch available") ]
  else
    [ setCreatingPR true;
      axios_post (NEXT_PUBLIC_API_URL +:+ "/api/pr")
                 {| req_job_id := job_id st; access_token := token st |} ].

Definition createPR_settled (o : PostOutcome) : list Call :=
  match o with
  | PostResolved body =>
      [ alert ("✅ Pull request created!" +:+ newline +:+ newline
               +:+ ToString (assoc "pr_url" body));
        window_open (assoc "pr_url" body);
        setCreatingPR false ]
  | PostRejected err =>
      [ setError (or_else (Api.response_detail err) (JStr "Failed to create PR"));
        setCreatingPR false ]
  end.

Definition createEnhancementPR (st : State) : list Call :=
  if falsy_str (token st) then
    [ setError (JStr "Not authenticated. Please login first.") ]
  else if negb (truthy (result_field Api.enhancement_patch st)) then
    [ setError (JStr "No enhancement suggestions available") ]
  else
    [ setCreatingEnhancementPR true;
      axios_post (NEXT_PUBLIC_API_URL +:+ "/api/pr-enhancements")
                 {| req_job_id := job_id st; access_token := token st |} ].

Definition createEnhancementPR_settled (o : PostOutcome) : list Call :=
  match o with
  | PostResolved body =>
      [ alert ("✅ Enhancement PR created!" +:+ newline +:+ newline
               +:+ ToString (assoc "pr_url" body));
        window_open (assoc "pr_url" body);
        setCreatingEnhancementPR false ]
  | PostRejected err =>
      [ setError (or_else (Api.response_detail err)
                          (JStr "Failed to create enhancement PR"));
        setCreatingEnhancementPR false ]
  end.

Definition createDeploymentPR (st : State) : list Call :=
  if falsy_str (token st) then
    [ setError (JStr "Not authenticated. Please login first.") ]
  else if negb (truthy (result_field Api.deployment_patch st)) then
    [ setError (JStr "No deployment configuration available") ]
  else
    [ setCreatingDeploymentPR true;
      axios_post (NEXT_PUBLIC_API_URL +:+ "/api/pr-deployment")
                 {| req_job_id := job_id st; access_token := token st |} ].

Definition createDeploymentPR_settled (o : PostOutcome) : list Call :=
  match o with
  | PostResolved body =>
      [ alert ("✅ Deployment configuration PR created!" +:+ newline +:+ newline
               +:+ ToString (assoc "pr_url" body));
        window_open (assoc "pr_url" body);
        setCreatingDeploymentPR false ]
  | PostRejected err =>
      [ setError (or_else (Api.response_detail err)
                          (JStr "Failed to create deployment PR"));
        setCreatingDeploymentPR false ]
  end.

End WithApiUrl.

Definition handleLogout (b : Browser) : Browser :=
  router_push "/"
    (removeItem "user_login"
      (removeItem "user_id"
        (removeItem "user_name"
          (removeItem "user_email"
            (removeItem "access_token" b))))).

Record Stats := {
  highSeverity : nat;
  mediumSeverity : nat;
  lowSeverity : nat;
  performanceEnhancements : nat;
  securityEnhancements : nat;
  maintainabilityEnhancements : nat;
  highPriorityFiles : nat;
  mediumPriorityFiles : nat;
  lowPriorityFiles : nat;
  totalFiles : nat;
  analyzedLines : JsVal;
  totalIssues : nat;
  totalEnhancements : nat
}.

(** [calculateStats]: [None] is the [null] returned while there is no
    result. *)
Definition calculateStats (st : State) : option Stats :=
  match result st with
  | None => None
  | Some result =>
      let issues := default_empty (Api.issues result) in
      let enhancements := default_empty (Api.enhancements result) in
      let file_suggestions := default_empty (Api.file_suggestions result) in
      let highSeverity :=
        length (List.filter (fun i => strict_eq_str (Api.severity i) "high") issues) in
      let mediumSeverity :=
        length (List.filter (fun i => strict_eq_str (Api.severity i) "medium") issues) in
      let lowSeverity :=
        length (List.filter (fun i => strict_eq_str (Api.severity i) "low") issues) in
      let performanceEnhancements :=
        length (List.filter (fun e => strict_eq_str (Api.type e) "performance") enhancements) in
      let securityEnhancements :=
        length (List.filter (fun e => strict_eq_str (Api.type e) "security") enhancements) in
      let maintainabilityEnhancements :=
        length (List.filter (fun e => strict_eq_str (Api.type e) "maintainability") enhancements) in
      let highPriorityFiles :=
        length (List.filter (fun f => strict_eq_str (Api.priority f) "high") file_suggestions) in
      let mediumPriorityFiles :=
        length (List.filter (fun f => strict_eq_str (Api.priority f) "medium") file_suggestions) in
      let lowPriorityFiles :=
        length (List.filter (fun f => strict_eq_str (Api.priority f) "low") file_suggestions) in
      let totalFiles :=
        match Api.files result with
        | Some fs => length fs
        | None => 0%nat
        end in
      let analyzedLines := or_else (Api.total_lines result) (JNum 0) in
      Some {| highSeverity := highSeverity;
              mediumSeverity := mediumSeverity;
              lowSeverity := lowSeverity;
              performanceEnhancements := performanceEnhancements;
              securityEnhancements := securityEnhancements;
              maintainabilityEnhancements := maintainabilityEnhancements;
              highPriorityFiles := highPriorityFiles;
              mediumPriorityFiles := mediumPriorityFiles;
              lowPriorityFiles := lowPriorityFiles;
              totalFiles := totalFiles;
              analyzedLines := analyzedLines;
              totalIssues := length issues;
              totalEnhancements := length enhancements |}
  end.

End Results.

(** ** The dashboard page (dashboard.js) *)

Module Dashboard.

Record State := {
  selectedRepo : string;
  customRepo : string;
  loading : bool;
  error : JsVal;
  jobId : JsVal;
  hosting : JsVal;
  apiKey : string;
  modelPreference : string;
  analysisMode : string;
  token : option string;
  userName : string;
  avatarUrl : string;
  isMounted : bool;
  isAnalyzing : bool
}.

(** The [useState] initial values. *)
Definition initial : State :=
  {| selectedRepo := ""; customRepo := ""; loading := false;
     error := JStr ""; jobId := JNull; hosting := JNull; apiKey := "";
     modelPreference := "gemini-2.5-flash"; analysisMode := "your-repos";
     token := None; userName := "User"; avatarUrl := "";
     isMounted := false; isAnalyzing := false |}.

(** The body posted by [analyze]; [repo_key] is its computed first key. *)
Record Payload := {
  repo_key : string;
  repo : string;
  access_token : option string;
  auto_issue : bool;
  auto_pr : bool;
  hosting_provider : JsVal;
  gemini_api_key : string;
  model_preference : string
}.

Inductive Call : Type :=
| setSelectedRepo (s : string)
| setCustomRepo (s : string)
| setLoading (b : bool)
| setError (v : JsVal)
| setJobId (v : JsVal)
| setToken (t : option string)
| setUserName (n : string)
| setAvatarUrl (u : string)
| setIsMounted (b : bool)
| setIsAnalyzing (b : bool)
| setTimeout (callback : list Call) (ms : Z)
| axios_post (url : string) (body : Payload)
| push (url : string).

Definition apply_call (st : State) (c : Call) : State :=
  match c with
  | setSelectedRepo s =>
      {| selectedRepo := s; customRepo := customRepo st;
         loading := loading st; error := error st; jobId := jobId st;
         hosting := hosting st; apiKey := apiKey st;
         modelPreference := modelPreference st;
         analysisMode := analysisMode st; token := token st;
         userName := userName st; avatarUrl := avatarUrl st;
         isMounted := isMounted st; isAnalyzing := isAnalyzing st |}
  | setCustomRepo s =>
      {| selectedRepo := selectedRepo st; customRepo := s;
         loading := loading st; error := error st; jobId := jobId st;
         hosting := hosting st; apiKey := apiKey st;
         modelPreference := modelPreference st;
         analysisMode := analysisMode st; token := token st;
         userName := userName st; avatarUrl := avatarUrl st;
         isMounted := isMounted st; isAnalyzing := isAnalyzing st |}
  | setLoading b =>
      {| selectedRepo := selectedRepo st; customRepo := customRepo st;
         loading := b; error := error st; jobId := jobId st;
         hosting := hosting st; apiKey := apiKey st;
         modelPreference := modelPreference st;
         analysisMode := analysisMode st; token := token st;
         userName := userName st; avatarUrl := avatarUrl st;
         isMounted := isMounted st; isAnalyzing := isAnalyzing st |}
  | setError v =>
      {| selectedRepo := selectedRepo st; customRepo := customRepo st;
         loading := loading st; error := v; jobId := jobId st;
         hosting := hosting st; apiKey := apiKey st;
         modelPreference := modelPreference st;
         analysisMode := analysisMode st; token := token st;
         userName := userName st; avatarUrl := avatarUrl st;
         isMounted := isMounted st; isAnalyzing := isAnalyzing st |}
  | setJobId v =>
      {| selectedRepo := selectedRepo st; customRepo := customRepo st;
         loading := loading st; error := error st; jobId := v;
         hosting := hosting st; apiKey := apiKey st;
         modelPreference := modelPreference st;
         analysisMode := analysisMode st; token := token st;
         userName := userName st; avatarUrl := avatarUrl st;
         isMounted := isMounted st; isAnalyzing := isAnalyzing st |}
  | setToken t =>
      {| selectedRepo := selectedRepo st; customRepo := customRepo st;
         loading := loading st; error := error st; jobId := jobId st;
         hosting := hosting st; apiKey := apiKey st;
         modelPreference := modelPreference st;
         analysisMode := analysisMode st; token := t;
         userName := userName st; avatarUrl := avatarUrl st;
         isMounted := isMounted st; isAnalyzing := isAnalyzing st |}
  | setUserName n =>
      {| selectedRepo := selectedRepo st; customRepo := customRepo st;
         loading := loading st; error := error st; jobId := jobId st;
         hosting := hosting st; apiKey := apiKey st;
         modelPreference := modelPreference st;
         analysisMode := analysisMode st; token := token st; userName := n;
         avatarUrl := avatarUrl st; isMounted := isMounted st;
         isAnalyzing := isAnalyzing st |}
  | setAvatarUrl u =>
      {| selectedRepo := selectedRepo st; customRepo := customRepo st;
         loading := loading st; error := error st; jobId := jobId st;
         hosting := hosting st; apiKey := apiKey st;
         modelPreference := modelPreference st;
         analysisMode := analysisMode st; token := token st;
         userName := userName st; avatarUrl := u; isMounted := isMounted st;
         isAnalyzing := isAnalyzing st |}
  | setIsMounted b =>
      {| selectedRepo := selectedRepo st; customRepo := customRepo st;
         loading := loading st; error := error st; jobId := jobId st;
         hosting := hosting st; apiKey := apiKey st;
         modelPreference := modelPreference st;
         analysisMode := analysisMode st; token := token st;
         userName := userName st; avatarUrl := avatarUrl st; isMounted := b;
         isAnalyzing := isAnalyzing st |}
  | setIsAnalyzing b =>
      {| selectedRepo := selectedRepo st; customRepo := customRepo st;
         loading := loading st; error := error st; jobId := jobId st;
         hosting := hosting st; apiKey := apiKey st;
         modelPreference := modelPreference st;
         analysisMode := analysisMode st; token := token st;
         userName := userName st; avatarUrl := avatarUrl st;
         isMounted := isMounted st; isAnalyzing := b |}
  | setTimeout _ _ | axios_post _ _ | push _ => st
  end.

Definition run (cs : list Call) (st : State) : State :=
  fold_left apply_call cs st.

Definition is_network (c : Call) : bool :=
  match c with axios_post _ _ => true | _ => false end.

(** How the awaited [axios.post] settles; a delivered body is an object,
    given by its properties. *)
Inductive Outcome : Type :=
| Resolved (body : list (string * JsVal))
| Rejected (err : Api.AxiosError).

Definition rate_limit_message : string :=
  "⚠️ Rate Limit Exceeded (429). The Gemini API is currently busy. Please wait a minute and try again, or use a different API key.".

Section WithEnvironment.

(** [process.env.NEXT_PUBLIC_API_URL] and the platform's [JSON.stringify]. *)
Variable NEXT_PUBLIC_API_URL : string.
Variable JSON_stringify : JsVal -> string.

(** [analyze], from the end of its validation to its [await]. *)
Definition submit (st : State) (repo : string) : list Call :=
  let your_repos := String.eqb (analysisMode st) "your-repos" in
  let endpoint := if your_repos then "/analyze-repo" else "/analyze" in
  let payload :=
    {| repo_key := if your_repos then "repo_full_name" else "repo_url";
       repo := repo;
       access_token := token st;
       auto_issue := false;
       auto_pr := false;
       hosting_provider := hosting st;
       gemini_api_key := apiKey st;
       model_preference := modelPreference st |} in
  [ setLoading true;
    setIsAnalyzing true;
    setError (JStr "");
    axios_post (NEXT_PUBLIC_API_URL +:+ "/api" +:+ endpoint) payload ].

(** [analyze], up to its [await]. *)
Definition analyze (st : State) : list Call :=
  if falsy_str (token st) then
    [ setError (JStr "Not authenticated. Please login first.") ]
  else if String.eqb (analysisMode st) "your-repos" then
    if String.eqb (selectedRepo st) "" then
      [ setError (JStr "Please select a repository") ]
    else submit st (selectedRepo st)
  else
    if String.eqb (trim (customRepo st)) "" then
      [ setError (JStr "Please enter a public repository (owner/repo)") ]
    else submit st (customRepo st).

(** The [detail] of the [catch] block, after the rate-limit test. *)
Definition failure_detail (err : Api.AxiosError) : JsVal :=
  let detail :=
    or_else (or_else (Api.response_detail err) (Api.message err))
            (JStr "Analysis failed") in
  if strict_eq_num (Api.response_status err) 429
     || match detail with
        | JStr s => includes s "429"      (* typeof detail === 'string' *)
        | _ => false
        end
  then JStr rate_limit_message
  else detail.

(** [analyze], from the point where the request has settled. *)
Definition analyze_settled (o : Outcome) : list Call :=
  match o with
  | Resolved body =>
      [ setJobId (assoc "job_id" body);
        setSelectedRepo "";
        setCustomRepo "";
        setTimeout
          [ setIsAnalyzing false;
            push ("/results?job_id=" +:+ ToString (assoc "job_id" body)) ]
          2000 ]
  | Rejected err =>
      let detail := failure_detail err in
      [ setIsAnalyzing false;
        setError (if typeof_object detail
                  then JStr (JSON_stringify detail) else detail);
        setLoading false ]
  end.

End WithEnvironment.

Definition handleLogout (b : Browser) : Browser :=
  router_push "/" (clear b).

(** The first effect of the page: read the session from the storage. *)
Definition mountEffect (b : Browser) : list Call :=
  let storedToken := getItem "access_token" b in
  let storedName :=
    match getItem "user_name" b with
    | Some n => if String.eqb n "" then "User" else n
    | None => "User"
    end in
  let storedAvatar :=
    match getItem "user_avatar" b with
    | Some u => u
    | None => ""
    end in
  [ setToken storedToken; setUserName storedName; setAvatarUrl storedAvatar;
    setIsMounted true ]
  ++ (if falsy_str storedToken then [ push "/" ] else []).

End Dashboard.

(** ** The OAuth callback page *)

Module Callback.

(** The storing part of the page's effect: nothing is stored unless both
    query parameters are present and non-empty. *)
Definition storeSession (token user : option string) (b : Browser) : Browser :=
  if falsy_str token || falsy_str user then b
  else
    match token, user with
    | Some t, Some u =>
        setItem "user_name" u
          (setItem "user_login" u
            (setItem "access_token" t b))
    | _, _ => b
    end.

End Callback.

(** ** Observations used to state the properties *)

Module Observe.

Import Results.

(** The tick's response has status running. *)
Definition running (o : Outcome) : Prop :=
  exists d, o = Resolved d /\ Api.status d = JStr "running".

(** The progress shown after the first [n] ticks of a run started in [st]. *)
Definition progress_after (ticks : list (list Call)) (n : nat) (st : State) : Z :=
  analysisProgress (run (concat (take n ticks)) st).


(** The gate shared by the three actions: [action] is the handler up to
    its [await], [field] the result field it requires, [path] its endpoint,
    [flag] the call that raises its in-flight flag and [missing] the text
    shown when the field is not there. *)
Definition gated (url : string) (action : State -> list Call)
    (field : Api.AnalysisResult -> JsVal) (path : string) (flag : Call)
    (missing : string) (st : State) : Prop :=
  (token st = None ->
     action st = [ setError (JStr "Not authenticated. Please login first.") ])
  /\ (falsy_str (token st) = false ->
      result_field field st = JUndefined \/ result_field field st = JNull ->
      action st = [ setError (JStr missing) ])
  /\ (existsb is_network (action st) = true
      <-> falsy_str (token st) = false
          /\ truthy (result_field field st) = true)
  /\ (existsb is_network (action st) = true ->
      (exists t, token st = Some t)
      /\ exists r, result st = Some r /\ field r <> JNull
                   /\ field r <> JUndefined)
  /\ (existsb is_network (action st) = true ->
      action st
      = [ flag;
          axios_post (url +:+ path)
            {| req_job_id := job_id st; access_token := token st |} ])
  /\ (existsb is_network (action st) = false ->
      exists text, action st = [ setError (JStr text) ]
                   /\ error (run (action st) st) = JStr text).

End Observe.

(** ** Sample inputs *)

Module Samples.

Definition API_URL : string := "http://localhost:8000".

Definition issue (sev : string) : Api.Issue :=
  {| Api.title := JStr "Hard-coded secret"; Api.severity := JStr sev |}.

Definition payload (st : JsVal) (err : JsVal) : Api.AnalysisResult :=
  {| Api.status := st; Api.error := err; Api.files := None;
     Api.issues := None; Api.enhancements := None;
     Api.file_suggestions := None; Api.total_lines := JUndefined;
     Api.patch := JUndefined; Api.enhancement_patch := JUndefined;
     Api.deployment_patch := JUndefined |}.

Definition payload_running : Api.AnalysisResult :=
  payload (JStr "running") JUndefined.

Definition payload_error : Api.AnalysisResult :=
  payload (JStr "error") (JStr "clone failed").

(** A finished analysis: three issues, a patch, no [enhancements] key. *)
Definition payload_done : Api.AnalysisResult :=
  {| Api.status := JStr "done"; Api.error := JUndefined;
     Api.files := Some [JStr "app.py"];
     Api.issues := Some [issue "high"; issue "high"; issue "low"];
     Api.enhancements := None;
     Api.file_suggestions := Some [];
     Api.total_lines := JNum 120;
     Api.patch := JStr "--- a/app.py";
     Api.enhancement_patch := JUndefined;
     Api.deployment_patch := JUndefined |}.

(** The results page of job [42] after its first effect, with a session. *)
Definition results_mounted : Results.State :=
  Results.run [Results.setToken (Some "gho_abc"); Results.setUserName "octocat";
               Results.setIsMounted true]
              (Results.initial (Some "42")).

(** The same page once the finished analysis has been received. *)
Definition results_done : Results.State :=
  Results.run (Results.fetchResults_settled true (Results.Resolved payload_done))
              results_mounted.

(** Ten successive responses, all of them running. *)
Definition ten_running : list Results.Outcome :=
  repeat (Results.Resolved payload_running) 10.

(** The storage after the OAuth callback, for a profile with an avatar. *)
Definition signed_in : Browser :=
  setItem "user_avatar" "https://avatars.example/u/1"
    (Callback.storeSession (Some "gho_abc") (Some "octocat")
       {| localStorage := ∅; location := "/callback" |}).

(** The dashboard with a session, the public form active and only blanks
    typed into it. *)
Definition dashboard_blank_public : Dashboard.State :=
  Dashboard.run [Dashboard.setToken (Some "gho_abc");
                 Dashboard.setCustomRepo "   "]
    {| Dashboard.selectedRepo := ""; Dashboard.customRepo := "";
       Dashboard.loading := false; Dashboard.error := JStr "";
       Dashboard.jobId := JNull; Dashboard.hosting := JNull;
       Dashboard.apiKey := ""; Dashboard.modelPreference := "gemini-2.5-flash";
       Dashboard.analysisMode := "public"; Dashboard.token := None;
       Dashboard.userName := "User"; Dashboard.avatarUrl := "";
       Dashboard.isMounted := true; Dashboard.isAnalyzing := false |}.

(** A failed submission answered with HTTP 429. *)
Definition too_many_requests : Api.AxiosError :=
  {| Api.response :=
       Some {| Api.http_status := JNum 429;
               Api.data := JObject [("detail", JStr "quota exhausted")] |};
     Api.message := JStr "Request failed with status code 429" |}.

(** A failed submission answered with HTTP 500 and a detail text. *)
Definition server_error : Api.AxiosError :=
  {| Api.response :=
       Some {| Api.http_status := JNum 500;
               Api.data := JObject [("detail", JStr "Repository not found")] |};
     Api.message := JStr "Request failed with status code 500" |}.

End Samples.

(** ** Creating a tracking issue (results.js) *)

Module IssueAction.

(** The page's state with the one cell the other handlers do not use. *)
Record State := {
  page : Results.State;
  creatingIssue : bool
}.

Record IssueRequest := {
  job_id : option string;
  issue_title : JsVal;
  issue_body : string;
  access_token : option string
}.

Inductive Call : Type :=
| on_page (c : Results.Call)
| setCreatingIssue (b : bool)
| axios_post (url : string) (body : IssueRequest).

Definition apply_call (st : State) (c : Call) : State :=
  match c with
  | on_page c' =>
      {| page := Results.apply_call (page st) c';
         creatingIssue := creatingIssue st |}
  | setCreatingIssue b => {| page := page st; creatingIssue := b |}
  | axios_post _ _ => st
  end.

Definition run (cs : list Call) (st : State) : State :=
  fold_left apply_call cs st.

Definition is_network (c : Call) : bool :=
  match c with axios_post _ _ => true | _ => false end.

(** The body text of the issue, a template over the issue object. *)
Definition issue_text (issue : list (string * JsVal)) : string :=
  "**Type:** " +:+ ToString (assoc "type" issue) +:+ Results.newline
  +:+ "**Severity:** " +:+ ToString (assoc "severity" issue) +:+ Results.newline
  +:+ "**File:** " +:+ ToString (assoc "file" issue) +:+ ":"
  +:+ ToString (assoc "line" issue) +:+ Results.newline +:+ Results.newline
  +:+ ToString (assoc "description" issue).

(** [createIssue], up to its [await]; [issue] is the clicked element of the
    issues array, an object given by its properties. *)
Definition createIssue (url : string) (issue : list (string * JsVal))
    (st : State) : list Call :=
  if falsy_str (Results.token (page st)) then
    [ on_page (Results.setError (JStr "Not authenticated. Please login first.")) ]
  else
    [ setCreatingIssue true;
      axios_post (url +:+ "/api/issue")
        {| job_id := Results.job_id (page st);
           issue_title := assoc "title" issue;
           issue_body := issue_text issue;
           access_token := Results.token (page st) |} ].

Definition createIssue_settled (o : Results.PostOutcome) : list Call :=
  match o with
  | Results.PostResolved _ =>
      [ on_page (Results.alert "✅ Issue created successfully!");
        setCreatingIssue false ]
  | Results.PostRejected err =>
      [ on_page (Results.setError
                   (or_else (Api.response_detail err)
                            (JStr "Failed to create issue")));
        setCreatingIssue false ]
  end.

(** The calls of a handler that act on the page's own state. *)
Fixpoint page_calls (cs : list Call) : list Results.Call :=
  match cs with
  | [] => []
  | on_page c :: rest => c :: page_calls rest
  | _ :: rest => page_calls rest
  end.

End IssueAction.

(** ** What the results page shows, and the walk of its handlers *)

Module ResultsView.

Import Results.




(** On the progress screen, the stage with index [idx] of the four listed
    stages (Security Scan, Code Quality, Performance, Deployment) is drawn
    lit when [analysisProgress > (idx + 1) * 25]. *)
Definition stage_lit (analysisProgress : Z) (idx : nat) : bool :=
  (Z.of_nat idx + 1) * 25 <? analysisProgress.

(** The call lists that the handlers and effects of the page produce in a
    state: the two effects, the two halves of a polling tick, the cleanup,
    the three pull-request actions and the issue action with their
    continuations. *)
Inductive handles (url : string) (st : State) : list Call -> Prop :=
| handles_mount b : handles url st (mountEffect b)
| handles_request jid : handles url st (fetchResults_request url jid)
| handles_settled ar o : handles url st (fetchResults_settled ar o)
| handles_cleanup : handles url st cleanup
| handles_createPR : handles url st (createPR url st)
| handles_createPR_settled o : handles url st (createPR_settled o)
| handles_createEnhancementPR : handles url st (createEnhancementPR url st)
| handles_createEnhancementPR_settled o :
    handles url st (createEnhancementPR_settled o)
| handles_createDeploymentPR : handles url st (createDeploymentPR url st)
| handles_createDeploymentPR_settled o :
    handles url st (createDeploymentPR_settled o)
| handles_createIssue issue flag :
    handles url st
      (IssueAction.page_calls
         (IssueAction.createIssue url issue
            {| IssueAction.page := st; IssueAction.creatingIssue := flag |}))
| handles_createIssue_settled o :
    handles url st (IssueAction.page_calls (IssueAction.createIssue_settled o)).

(** The states the page can get to from [st], one handler after another. *)
Inductive reaches (url : string) : State -> State -> Prop :=
| reaches_here st : reaches url st st
| reaches_next st cs st' :
    handles url st cs -> reaches url (run cs st) st' -> reaches url st st'.

(** The responses a polling run consumes: up to and including the first
    one that is not running. *)
Definition is_running (o : Outcome) : bool :=
  match o with
  | Resolved d => strict_eq_str (Api.status d) "running"
  | Rejected _ => false
  end.

Fixpoint consumed (outs : list Outcome) : list Outcome :=
  match outs with
  | [] => []
  | o :: rest => o :: (if is_running o then consumed rest else [])
  end.

End ResultsView.

(** ** The repository panel of the dashboard (dashboard.js) *)

Module Panel.

Record Feature := {
  id : Z;
  name : string;
  enabled : bool;
  description : string
}.

(** The page's state with the cells of the repository list, the provider
    list, the search box and the feature switches. *)
Record State := {
  page : Dashboard.State;
  userRepos : JsVal;
  reposLoading : bool;
  providers : JsVal;
  searchResults : JsVal;
  isSearching : bool;
  activeFeatures : list Feature
}.

Definition initial : State :=
  {| page := Dashboard.initial; userRepos := JArray []; reposLoading := false;
     providers := JArray []; searchResults := JArray []; isSearching := false;
     activeFeatures :=
       [ {| id := 1; name := "Security Scan"; enabled := true;
            description := "Real-time vulnerability detection" |};
         {| id := 2; name := "Code Quality"; enabled := true;
            description := "Best practices & patterns" |};
         {| id := 3; name := "Performance"; enabled := true;
            description := "Optimization suggestions" |};
         {| id := 4; name := "Deployment"; enabled := false;
            description := "Cloud configuration" |} ] |}.

Inductive Call : Type :=
| on_page (c : Dashboard.Call)
| setUserRepos (v : JsVal)
| setReposLoading (b : bool)
| setProviders (v : JsVal)
| setSearchResults (v : JsVal)
| setIsSearching (b : bool)
| setActiveFeatures (f : list Feature -> list Feature)
| axios_get (url : string) (params : list (string * option string)).

Definition apply_call (st : State) (c : Call) : State :=
  match c with
  | on_page c' =>
      {| page := Dashboard.apply_call (page st) c'; userRepos := userRepos st;
         reposLoading := reposLoading st; providers := providers st;
         searchResults := searchResults st; isSearching := isSearching st;
         activeFeatures := activeFeatures st |}
  | setUserRepos v =>
      {| page := page st; userRepos := v;
         reposLoading := reposLoading st; providers := providers st;
         searchResults := searchResults st; isSearching := isSearching st;
         activeFeatures := activeFeatures st |}
  | setReposLoading b =>
      {| page := page st; userRepos := userRepos st;
         reposLoading := b; providers := providers st;
         searchResults := searchResults st; isSearching := isSearching st;
         activeFeatures := activeFeatures st |}
  | setProviders v =>
      {| page := page st; userRepos := userRepos st;
         reposLoading := reposLoading st; providers := v;
         searchResults := searchResults st; isSearching := isSearching st;
         activeFeatures := activeFeatures st |}
  | setSearchResults v =>
      {| page := page st; userRepos := userRepos st;
         reposLoading := reposLoading st; providers := providers st;
         searchResults := v; isSearching := isSearching st;
         activeFeatures := activeFeatures st |}
  | setIsSearching b =>
      {| page := page st; userRepos := userRepos st;
         reposLoading := reposLoading st; providers := providers st;
         searchResults := searchResults st; isSearching := b;
         activeFeatures := activeFeatures st |}
  | setActiveFeatures f =>
      {| page := page st; userRepos := userRepos st;
         reposLoading := reposLoading st; providers := providers st;
         searchResults := searchResults st; isSearching := isSearching st;
         activeFeatures := f (activeFeatures st) |}
  | axios_get _ _ => st
  end.

Definition run (cs : list Call) (st : State) : State :=
  fold_left apply_call cs st.

Definition is_network (c : Call) : bool :=
  match c with
  | axios_get _ _ => true
  | on_page c' => Dashboard.is_network c'
  | _ => false
  end.

Definition is_setError (c : Call) : bool :=
  match c with on_page (Dashboard.setError _) => true | _ => false end.

(** How an awaited [axios.get] settles, with the body as delivered. *)
Inductive Outcome : Type :=
| Resolved (data : JsVal)
| Rejected (err : Api.AxiosError).

(** The updater of [toggleFeature]. *)
Definition toggle (id0 : Z) (features : list Feature) : list Feature :=
  List.map (fun feature =>
              if id feature =? id0
              then {| id := id feature; name := name feature;
                      enabled := negb (enabled feature);
                      description := description feature |}
              else feature)
           features.

Definition toggleFeature (id0 : Z) : list Call :=
  [ setActiveFeatures (toggle id0) ].

Section WithEnvironment.

(** [process.env.NEXT_PUBLIC_API_URL], and the platform's [Object.values]
    with [None] where it throws. *)
Variable NEXT_PUBLIC_API_URL : string.
Variable Object_values : JsVal -> option (list JsVal).

(** [fetchProviders], up to its [await]. *)
Definition fetchProviders : list Call :=
  [ axios_get (NEXT_PUBLIC_API_URL +:+ "/api/hosting/providers") [] ].

Definition fetchProviders_settled (o : Outcome) : list Call :=
  match o with
  | Resolved (JArray elems) => [ setProviders (JArray elems) ]
  | Resolved data =>
      match Object_values data with
      | Some values => [ setProviders (JArray values) ]
      | None => [ setProviders (JArray []) ]
      end
  | Rejected _ => [ setProviders (JArray []) ]
  end.

(** [fetchUserRepos], up to its [await]. *)
Definition fetchUserRepos (st : State) : list Call :=
  if falsy_str (Dashboard.token (page st)) then []
  else
    [ setReposLoading true;
      axios_get (NEXT_PUBLIC_API_URL +:+ "/api/user/repos")
                [ ("access_token", Dashboard.token (page st)) ] ].


(** The second effect of the page. *)
Definition loadEffect (st : State) : list Call :=
  if falsy_str (Dashboard.token (page st))
     || negb (Dashboard.isMounted (page st))
  then []
  else fetchProviders ++ fetchUserRepos st.

(** The search box: the handler of the Enter key and of the button. *)
Definition search (st : State) : list Call :=
  [ setSearchResults (JArray []);
    setIsSearching true;
    axios_get (NEXT_PUBLIC_API_URL +:+ "/api/github/search")
              [ ("q", Some (Dashboard.customRepo (page st)));
                ("access_token", Dashboard.token (page st)) ] ].

Definition search_settled (o : Outcome) : list Call :=
  match o with
  | Resolved JUndefined | Resolved JNull | Rejected _ =>
      [ on_page (Dashboard.setError (JStr "Search failed"));
        setIsSearching false ]
  | Resolved data =>
      [ setSearchResults (opt_get data "repos");
        setIsSearching false ]
  end.

(** Clicking a search result whose [full_name] is the string [full_name]. *)
Definition selectSearchResult (full_name : string) : list Call :=
  [ on_page (Dashboard.setCustomRepo full_name);
    setSearchResults (JArray []) ].

(** The page's own handlers, seen from the panel. *)
Definition analyze (st : State) : list Call :=
  List.map on_page (Dashboard.analyze NEXT_PUBLIC_API_URL (page st)).

End WithEnvironment.

(** The Analyze button is disabled while loading or without a token. *)
Definition analyze_disabled (st : Dashboard.State) : bool :=
  Dashboard.loading st || falsy_str (Dashboard.token st).

End Panel.

(** ** What the dashboard's markup reads *)

Module DashboardView.

(** The state cells that occur in the markup the dashboard returns.  The
    cells [error], [jobId] and [isMounted] occur in no expression of it:
    they are written by the handlers and read, if at all, by effects. *)
Record Reads := {
  userName : string;
  avatarUrl : string;
  analysisMode : string;
  apiKey : string;
  modelPreference : string;
  reposLoading : bool;
  userRepos : JsVal;
  selectedRepo : string;
  customRepo : string;
  token : option string;
  isSearching : bool;
  searchResults : JsVal;
  activeFeatures : list Panel.Feature;
  hosting : JsVal;
  providers : JsVal;
  loading : bool;
  isAnalyzing : bool
}.

Definition markup_reads (st : Panel.State) : Reads :=
  {| userName := Dashboard.userName (Panel.page st);
     avatarUrl := Dashboard.avatarUrl (Panel.page st);
     analysisMode := Dashboard.analysisMode (Panel.page st);
     apiKey := Dashboard.apiKey (Panel.page st);
     modelPreference := Dashboard.modelPreference (Panel.page st);
     reposLoading := Panel.reposLoading st;
     userRepos := Panel.userRepos st;
     selectedRepo := Dashboard.selectedRepo (Panel.page st);
     customRepo := Dashboard.customRepo (Panel.page st);
     token := Dashboard.token (Panel.page st);
     isSearching := Panel.isSearching st;
     searchResults := Panel.searchResults st;
     activeFeatures := Panel.activeFeatures st;
     hosting := Dashboard.hosting (Panel.page st);
     providers := Panel.providers st;
     loading := Dashboard.loading (Panel.page st);
     isAnalyzing := Dashboard.isAnalyzing (Panel.page st) |}.

(** The continuation of [analyze], seen from the panel. *)
Definition analyze_settled (stringify : JsVal -> string)
    (o : Dashboard.Outcome) : list Panel.Call :=
  List.map Panel.on_page (Dashboard.analyze_settled stringify o).

End DashboardView.

(** ** The result as an object of the heap

    [calculateStats] on the response body as JavaScript has it: values
    that are primitives or references to arrays and objects, property
    reads that throw on null and undefined, and [filter], which builds a
    new array.  A computation takes the heap and gives the heap after it
    together with its value, or with nothing when it threw. *)

Module Heap.

Definition loc := positive.

Inductive Val : Type :=
| VUndefined
| VNull
| VBool (b : bool)
| VNum (z : Z)
| VStr (s : string)
| VRef (l : loc).

Inductive Obj : Type :=
| OArray (elems : list Val)
| OObject (props : list (string * Val)).

Definition truthy (v : Val) : bool :=
  match v with
  | VUndefined | VNull => false
  | VBool b => b
  | VNum z => negb (z =? 0)
  | VStr s => negb (String.eqb s "")
  | VRef _ => true
  end.

Definition nullish (v : Val) : bool :=
  match v with
  | VUndefined | VNull => true
  | _ => false
  end.

Definition or_else (a b : Val) : Val := if truthy a then a else b.

Definition strict_eq_str (v : Val) (lit : string) : bool :=
  match v with
  | VStr s => String.eqb s lit
  | _ => false
  end.

Fixpoint assoc (k : string) (props : list (string * Val)) : Val :=
  match props with
  | [] => VUndefined
  | (k', v) :: rest => if String.eqb k k' then v else assoc k rest
  end.

(** The length of a string in UTF-16 code units, from its UTF-8 bytes: one
    for each byte that starts a character and one more for each character
    of four bytes. *)
Definition utf16_length (s : string) : Z :=
  fold_right
    (fun c n => (if (c <? 128) || (192 <=? c) then 1 else 0)
                + (if 240 <=? c then 1 else 0) + n)
    0 (List.map Z.of_N (codes s)).

(** The value of [v.k] for a [v] that is not null or undefined, for the
    property names the page reads (none of them an index or a method):
    objects have their properties, arrays and strings their [length]. *)
Definition read (h : gmap loc Obj) (v : Val) (k : string) : Val :=
  match v with
  | VRef l =>
      match h !! l with
      | Some (OObject props) => assoc k props
      | Some (OArray elems) =>
          if String.eqb k "length" then VNum (Z.of_nat (length elems))
          else VUndefined
      | None => VUndefined
      end
  | VStr s => if String.eqb k "length" then VNum (utf16_length s) else VUndefined
  | _ => VUndefined
  end.

Definition M (A : Type) : Type := gmap loc Obj -> gmap loc Obj * option A.

Definition ret {A} (x : A) : M A := fun h => (h, Some x).

Definition throw {A} : M A := fun h => (h, None).

Definition bind {A B} (m : M A) (f : A -> M B) : M B :=
  fun h =>
    match m h with
    | (h1, Some x) => f x h1
    | (h1, None) => (h1, None)
    end.

Notation "'let!' x ':=' m 'in' k" := (bind m (fun x => k))
  (at level 10, x name, m at level 100, k at level 200).

(** [v.k]: a TypeError on null and undefined. *)
Definition get (v : Val) (k : string) : M Val :=
  fun h => if nullish v then (h, None) else (h, Some (read h v k)).

(** A new array or object, at a location the heap does not use. *)
Definition alloc (o : Obj) : M Val :=
  fun h => let l := fresh (dom h) in (<[l := o]> h, Some (VRef l)).

Fixpoint filter_elems (callback : Val -> M bool) (elems : list Val)
  : M (list Val) :=
  match elems with
  | [] => ret []
  | e :: rest =>
      let! keep := callback e in
      let! kept := filter_elems callback rest in
      ret (if keep then e :: kept else kept)
  end.

(** [arr.filter(callback)]: a TypeError unless [arr] is an array. *)
Definition filter (arr : Val) (callback : Val -> M bool) : M Val :=
  fun h =>
    match arr with
    | VRef l =>
        match h !! l with
        | Some (OArray elems) =>
            (let! kept := filter_elems callback elems in
             alloc (OArray kept)) h
        | _ => (h, None)
        end
    | _ => (h, None)
    end.

(** [= []] in a destructuring pattern. *)
Definition default_array (v : Val) : M Val :=
  match v with
  | VUndefined => alloc (OArray [])
  | _ => ret v
  end.

(** [arr.filter(x => x.field === 'lit').length] *)
Definition count (arr : Val) (field lit : string) : M Val :=
  let! kept := filter arr (fun x => let! v := get x field in
                                    ret (strict_eq_str v lit)) in
  get kept "length".

Record Stats := {
  highSeverity : Val;
  mediumSeverity : Val;
  lowSeverity : Val;
  performanceEnhancements : Val;
  securityEnhancements : Val;
  maintainabilityEnhancements : Val;
  highPriorityFiles : Val;
  mediumPriorityFiles : Val;
  lowPriorityFiles : Val;
  totalFiles : Val;
  analyzedLines : Val;
  totalIssues : Val;
  totalEnhancements : Val
}.

(** [calculateStats] for the value [result] of the page's result cell;
    the value [None] is the [null] it returns without a result. *)
Definition calculateStats (result : Val) : M (option Stats) :=
  if negb (truthy result) then ret None
  else
    let! issues0 := get result "issues" in
    let! issues := default_array issues0 in
    let! enhancements0 := get result "enhancements" in
    let! enhancements := default_array enhancements0 in
    let! file_suggestions0 := get result "file_suggestions" in
    let! file_suggestions := default_array file_suggestions0 in
    let! highSeverity := count issues "severity" "high" in
    let! mediumSeverity := count issues "severity" "medium" in
    let! lowSeverity := count issues "severity" "low" in
    let! performanceEnhancements := count enhancements "type" "performance" in
    let! securityEnhancements := count enhancements "type" "security" in
    let! maintainabilityEnhancements :=
      count enhancements "type" "maintainability" in
    let! highPriorityFiles := count file_suggestions "priority" "high" in
    let! mediumPriorityFiles := count file_suggestions "priority" "medium" in
    let! lowPriorityFiles := count file_suggestions "priority" "low" in
    let! files := get result "files" in
    let! files_length :=
      (if nullish files then ret VUndefined else get files "length") in
    let! total_lines := get result "total_lines" in
    let! totalIssues := get issues "length" in
    let! totalEnhancements := get enhancements "length" in
    ret (Some {| highSeverity := highSeverity;
                 mediumSeverity := mediumSeverity;
                 lowSeverity := lowSeverity;
                 performanceEnhancements := performanceEnhancements;
                 securityEnhancements := securityEnhancements;
                 maintainabilityEnhancements := maintainabilityEnhancements;
                 highPriorityFiles := highPriorityFiles;
                 mediumPriorityFiles := mediumPriorityFiles;
                 lowPriorityFiles := lowPriorityFiles;
                 totalFiles := or_else files_length (VNum 0);
                 analyzedLines := or_else total_lines (VNum 0);
                 totalIssues := totalIssues;
                 totalEnhancements := totalEnhancements |}).

(** The computation changes no object that exists: the heap after it
    extends the heap before it, whether it returned or threw. *)
Definition keeps {A} (m : M A) : Prop := forall h, h ⊆ (m h).1.

(** From [h] the computation returns, without throwing, a value and a
    heap that extend [h] and satisfy [Q]. *)
Definition returns {A} (m : M A) (h : gmap loc Obj)
    (Q : gmap loc Obj -> A -> Prop) : Prop :=
  exists h' x, m h = (h', Some x) /\ h ⊆ h' /\ Q h' x.

(** An element the callbacks can read, now and later: not null or
    undefined, and if a reference then to an object of the heap. *)
Definition element_ok (h : gmap loc Obj) (e : Val) : Prop :=
  nullish e = false /\ forall l, e = VRef l -> is_Some (h !! l).

(** A field as the page expects it: absent, or an array of such elements. *)
Definition field_ok (h : gmap loc Obj) (v : Val) : Prop :=
  v = VUndefined
  \/ exists la elems, v = VRef la /\ h !! la = Some (OArray elems)
                      /\ Forall (element_ok h) elems.

(** The count reported for a field and a category: 0 for an absent field,
    and for an array the number of its elements whose categorical field is
    the category's string. *)
Definition counts_of (h : gmap loc Obj) (v : Val) (field lit : string)
    (reported : Val) : Prop :=
  (v = VUndefined -> reported = VNum 0)
  /\ (forall la elems, v = VRef la -> h !! la = Some (OArray elems) ->
        exists n, Count (fun e => read h e field = VStr lit) elems n
                  /\ reported = VNum (Z.of_nat n)).

(** The total reported for a field: 0 if absent, else the array's length. *)
Definition total_of (h : gmap loc Obj) (v : Val) (reported : Val) : Prop :=
  (v = VUndefined -> reported = VNum 0)
  /\ (forall la elems, v = VRef la -> h !! la = Some (OArray elems) ->
        reported = VNum (Z.of_nat (length elems))).

(** Sample heaps: a result whose [issues] is null, and a result with three
    issues of severities high, high, low and no [enhancements] key. *)
Definition heap_null_issues : gmap loc Obj :=
  {[ 1%positive := OObject [ ("status", VStr "done"); ("issues", VNull) ] ]}.

Definition heap_three_issues : gmap loc Obj :=
  <[ 1%positive := OObject [ ("status", VStr "done");
                             ("issues", VRef 2%positive);
                             ("file_suggestions", VRef 6%positive);
                             ("files", VRef 6%positive);
                             ("total_lines", VNum 120) ] ]>
  (<[ 2%positive := OArray [ VRef 3%positive; VRef 4%positive; VRef 5%positive ] ]>
  (<[ 3%positive := OObject [ ("severity", VStr "high") ] ]>
  (<[ 4%positive := OObject [ ("severity", VStr "high") ] ]>
  (<[ 5%positive := OObject [ ("severity", VStr "low") ] ]>
  (<[ 6%positive := OArray [] ]> ∅))))).

End Heap.

(** ** Further sample inputs *)

Module Cases.

(** The finished report, then an enhancement pull request that is refused
    because the analysis has no enhancement patch. *)
Definition results_refused : Results.State :=
  Results.run (Results.createEnhancementPR Samples.API_URL Samples.results_done)
              Samples.results_done.

(** The same page after a later tick has delivered the report again. *)
Definition results_later : Results.State :=
  Results.run (Results.fetchResults_settled true
                 (Results.Resolved Samples.payload_done))
              results_refused.

(** The dashboard in the public mode with a repository typed in. *)
Definition dashboard_typed : Dashboard.State :=
  Dashboard.run [Dashboard.setCustomRepo " octocat/hello "]
                Samples.dashboard_blank_public.

(** The panel around the dashboard with only blanks typed in. *)
Definition panel_blank : Panel.State :=
  {| Panel.page := Samples.dashboard_blank_public;
     Panel.userRepos := JArray []; Panel.reposLoading := false;
     Panel.providers := JArray []; Panel.searchResults := JArray [];
     Panel.isSearching := false;
     Panel.activeFeatures := Panel.activeFeatures Panel.initial |}.

End Cases.

(** ** Sample panels *)

Module MoreCases.

(** The panel of a signed-in user, in the owned-repository mode with
    nothing selected. *)
Definition panel_signed_in : Panel.State :=
  Panel.run [Panel.on_page (Dashboard.setToken (Some "gho_abc"))]
            Panel.initial.

(** The panel in the public mode with a repository typed in, and the same
    panel once [analyze] has sent its request. *)
Definition panel_typed : Panel.State :=
  Panel.run [Panel.on_page (Dashboard.setCustomRepo " octocat/hello ")]
            Cases.panel_blank.

Definition panel_sent : Panel.State :=
  Panel.run (Panel.analyze Samples.API_URL panel_typed) panel_typed.

End MoreCases.

(** * Properties *)

(** ** Basic facts about the JavaScript operators *)

Lemma strict_eq_str_spec (v : JsVal) (lit : string) :
  strict_eq_str v lit = true <-> v = JStr lit.
Proof.
  destruct v; simpl; try (split; [discriminate | intros H; discriminate H]).
  rewrite String.eqb_eq. split; [intros -> | intros [= ->]]; reflexivity.
Qed.

Lemma strict_eq_str_false (v : JsVal) (lit : string) :
  strict_eq_str v lit = false <-> v <> JStr lit.
Proof.
  rewrite <- strict_eq_str_spec. destruct (strict_eq_str v lit); split;
    (congruence || (intros H; exfalso; apply H; reflexivity)).
Qed.

Lemma truthy_not_nullish (v : JsVal) :
  truthy v = true -> v <> JUndefined /\ v <> JNull.
Proof. destruct v; simpl; intros H; split; congruence. Qed.

Lemma falsy_str_false (t : option string) :
  falsy_str t = false <-> exists s, t = Some s /\ s <> "".
Proof.
  destruct t as [s|]; simpl.
  - rewrite String.eqb_neq. split.
    + intros H. exists s. split; [reflexivity | exact H].
    + intros (s' & [= <-] & H). exact H.
  - split; [discriminate | intros (s & H & _); discriminate H].
Qed.

(** ** Counting with [filter] *)

Section Counting.

Context {A : Type}.

Lemma filter_length_Count (f : A -> bool) (P : A -> Prop) (l : list A) :
  (forall x, f x = true <-> P x) ->
  Count P l (length (List.filter f l)).
Proof.
  intros Hf. induction l as [|x l IH]; simpl.
  - constructor.
  - destruct (f x) eqn:E; simpl.
    + apply Count_hit; [apply Hf, E | exact IH].
    + apply Count_miss; [rewrite <- Hf, E; discriminate | exact IH].
Qed.

(** Three pairwise exclusive criteria select at most all elements, and
    all of them exactly when each element meets one of the three. *)
Lemma filter3_length (f g h : A -> bool) (l : list A) :
  (forall x, f x = true -> g x = false /\ h x = false) ->
  (forall x, g x = true -> h x = false) ->
  (length (List.filter f l) + length (List.filter g l)
     + length (List.filter h l) <= length l)%nat
  /\ ((length (List.filter f l) + length (List.filter g l)
         + length (List.filter h l) = length l)%nat
      <-> Forall (fun x => f x = true \/ g x = true \/ h x = true) l).
Proof.
  intros Hf Hg. induction l as [|x l [IHle IHeq]]; simpl.
  - split; [lia | split; [constructor | reflexivity]].
  - destruct (f x) eqn:Ef.
    + destruct (Hf x Ef) as [-> ->]. simpl. split; [lia|].
      rewrite Forall_cons. split.
      * intros H. split; [left; exact Ef | apply IHeq; lia].
      * intros [_ H]. apply IHeq in H. lia.
    + destruct (g x) eqn:Eg.
      * rewrite (Hg x Eg). simpl. split; [lia|].
        rewrite Forall_cons. split.
        -- intros H. split; [right; left; exact Eg | apply IHeq; lia].
        -- intros [_ H]. apply IHeq in H. lia.
      * destruct (h x) eqn:Eh; simpl.
        -- split; [lia|]. rewrite Forall_cons. split.
           ++ intros H. split; [right; right; exact Eh | apply IHeq; lia].
           ++ intros [_ H]. apply IHeq in H. lia.
        -- split; [lia|]. rewrite Forall_cons. split.
           ++ intros H. lia.
           ++ intros [[H|[H|H]] _]; congruence.
Qed.

Lemma filter_skip (f : A -> bool) (pre post : list A) (x : A) :
  f x = false ->
  List.filter f (pre ++ x :: post) = List.filter f (pre ++ post).
Proof.
  intros Hx. rewrite !List.filter_app. simpl. rewrite Hx. reflexivity.
Qed.

End Counting.

(** ** The derived statistics *)

(** On the typed result, whose array fields are arrays or absent keys,
    [calculateStats] returns a statistics record: an absent [issues],
    [enhancements] or [file_suggestions] array counts as empty, each count
    over a present array is the number of its elements whose categorical
    field is the category's string, and three issues of severities high,
    high, low give high = 2, medium = 0, low = 1. *)
Theorem calculateStats_typed_counts (st : Results.State) (r : Api.AnalysisResult) :
  Results.result st = Some r ->
  exists s, Results.calculateStats st = Some s
  /\ (forall l, Api.issues r = Some l ->
        Count (fun i => Api.severity i = JStr "high") l (Results.highSeverity s)
        /\ Count (fun i => Api.severity i = JStr "medium") l (Results.mediumSeverity s)
        /\ Count (fun i => Api.severity i = JStr "low") l (Results.lowSeverity s)
        /\ Results.totalIssues s = length l)
  /\ (forall l, Api.enhancements r = Some l ->
        Count (fun e => Api.type e = JStr "performance") l
              (Results.performanceEnhancements s)
        /\ Count (fun e => Api.type e = JStr "security") l
                 (Results.securityEnhancements s)
        /\ Count (fun e => Api.type e = JStr "maintainability") l
                 (Results.maintainabilityEnhancements s)
        /\ Results.totalEnhancements s = length l)
  /\ (forall l, Api.file_suggestions r = Some l ->
        Count (fun f => Api.priority f = JStr "high") l (Results.highPriorityFiles s)
        /\ Count (fun f => Api.priority f = JStr "medium") l
                 (Results.mediumPriorityFiles s)
        /\ Count (fun f => Api.priority f = JStr "low") l (Results.lowPriorityFiles s))
  /\ (Api.issues r = None ->
        Results.highSeverity s = 0%nat /\ Results.mediumSeverity s = 0%nat
        /\ Results.lowSeverity s = 0%nat /\ Results.totalIssues s = 0%nat)
  /\ (Api.enhancements r = None ->
        Results.performanceEnhancements s = 0%nat
        /\ Results.securityEnhancements s = 0%nat
        /\ Results.maintainabilityEnhancements s = 0%nat
        /\ Results.totalEnhancements s = 0%nat)
  /\ (Api.file_suggestions r = None ->
        Results.highPriorityFiles s = 0%nat
        /\ Results.mediumPriorityFiles s = 0%nat
        /\ Results.lowPriorityFiles s = 0%nat)
  /\ (forall i1 i2 i3,
        Api.issues r = Some [i1; i2; i3] ->
        Api.severity i1 = JStr "high" -> Api.severity i2 = JStr "high" ->
        Api.severity i3 = JStr "low" ->
        Results.highSeverity s = 2%nat /\ Results.mediumSeverity s = 0%nat
        /\ Results.lowSeverity s = 1%nat).
Proof.
  intros Hr. unfold Results.calculateStats. rewrite Hr.
  eexists. split; [reflexivity |]. cbn [Results.highSeverity
    Results.mediumSeverity Results.lowSeverity Results.totalIssues
    Results.performanceEnhancements Results.securityEnhancements
    Results.maintainabilityEnhancements Results.totalEnhancements
    Results.highPriorityFiles Results.mediumPriorityFiles
    Results.lowPriorityFiles].
  repeat match goal with |- _ /\ _ => split end.
  - intros l ->. cbn [default_empty].
    repeat split; apply filter_length_Count; intros x; apply strict_eq_str_spec.
  - intros l ->. cbn [default_empty].
    repeat split; apply filter_length_Count; intros x; apply strict_eq_str_spec.
  - intros l ->. cbn [default_empty].
    repeat split; apply filter_length_Count; intros x; apply strict_eq_str_spec.
  - intros ->. repeat split.
  - intros ->. repeat split.
  - intros ->. repeat split.
  - intros i1 i2 i3 -> H1 H2 H3. cbn [default_empty List.filter].
    rewrite H1, H2, H3. repeat split.
Qed.

(** The same on a result with two high issues and a low one and no
    [enhancements] key. *)
Lemma calculateStats_typed_counts_witness :
  Results.result Samples.results_done = Some Samples.payload_done
  /\ exists s, Results.calculateStats Samples.results_done = Some s
       /\ Results.highSeverity s = 2%nat /\ Results.mediumSeverity s = 0%nat
       /\ Results.lowSeverity s = 1%nat
       /\ Results.performanceEnhancements s = 0%nat.
Proof.
  split; [reflexivity |].
  destruct (calculateStats_typed_counts Samples.results_done Samples.payload_done
              eq_refl)
    as (s & Hs & _ & _ & _ & _ & Henh & _ & Hex).
  exists s. split; [exact Hs |].
  destruct (Hex _ _ _ eq_refl eq_refl eq_refl eq_refl) as (Hh & Hm & Hl).
  destruct (Henh eq_refl) as (Hp & _).
  repeat split; assumption.
Defined.

(** C10. The three severity counts add up to at most [totalIssues], the
    length of the issues array; they add up to exactly [totalIssues] if and
    only if every issue's severity is one of the strings high, medium, low;
    and an issue of any other severity adds one to [totalIssues] and nothing
    to the three counts. *)
Theorem C10_severity_counts_bounded (st : Results.State) (r : Api.AnalysisResult) :
  Results.result st = Some r ->
  exists s, Results.calculateStats st = Some s
  /\ Results.totalIssues s = length (default_empty (Api.issues r))
  /\ (Results.highSeverity s + Results.mediumSeverity s + Results.lowSeverity s
        <= Results.totalIssues s)%nat
  /\ ((Results.highSeverity s + Results.mediumSeverity s + Results.lowSeverity s
         = Results.totalIssues s)%nat
      <-> Forall (fun i => Api.severity i = JStr "high"
                           \/ Api.severity i = JStr "medium"
                           \/ Api.severity i = JStr "low")
                 (default_empty (Api.issues r)))
  /\ (forall pre i post,
        Api.issues r = Some (pre ++ i :: post)%list ->
        Api.severity i <> JStr "high" -> Api.severity i <> JStr "medium" ->
        Api.severity i <> JStr "low" ->
        Results.totalIssues s = S (length (pre ++ post)%list)
        /\ Count (fun i => Api.severity i = JStr "high") (pre ++ post)%list
                 (Results.highSeverity s)
        /\ Count (fun i => Api.severity i = JStr "medium") (pre ++ post)%list
                 (Results.mediumSeverity s)
        /\ Count (fun i => Api.severity i = JStr "low") (pre ++ post)%list
                 (Results.lowSeverity s)).
Proof.
  intros Hr. unfold Results.calculateStats. rewrite Hr.
  eexists. split; [reflexivity |].
  cbn [Results.highSeverity Results.mediumSeverity Results.lowSeverity
       Results.totalIssues].
  set (l := default_empty (Api.issues r)).
  pose proof (filter3_length
    (fun i => strict_eq_str (Api.severity i) "high")
    (fun i => strict_eq_str (Api.severity i) "medium")
    (fun i => strict_eq_str (Api.severity i) "low") l) as H3.
  destruct H3 as [Hle Heq].
  { intros x Hx. apply strict_eq_str_spec in Hx. rewrite Hx. split; reflexivity. }
  { intros x Hx. apply strict_eq_str_spec in Hx. rewrite Hx. reflexivity. }
  split; [reflexivity |]. split; [exact Hle |]. split.
  - rewrite Heq. apply Forall_iff. intros x.
    rewrite !strict_eq_str_spec. reflexivity.
  - intros pre i post Hl Hh Hm Hlo. subst l. rewrite Hl. cbn [default_empty].
    apply strict_eq_str_false in Hh, Hm, Hlo.
    rewrite !(filter_skip _ pre post i) by assumption.
    split; [rewrite !length_app; simpl; lia |].
    repeat split; apply filter_length_Count; intros x; apply strict_eq_str_spec.
Qed.

(** C10, on a result whose issues are high, high and low. *)
Lemma C10_severity_counts_bounded_witness :
  Results.result Samples.results_done = Some Samples.payload_done
  /\ exists s, Results.calculateStats Samples.results_done = Some s
       /\ (Results.highSeverity s + Results.mediumSeverity s
           + Results.lowSeverity s <= Results.totalIssues s)%nat.
Proof.
  split; [reflexivity |].
  destruct (C10_severity_counts_bounded Samples.results_done
              Samples.payload_done eq_refl) as (s & Hs & _ & Hle & _).
  exists s. split; assumption.
Defined.

(** ** The job poller *)

Section Poller.

Import Results Observe.

Variable url : string.

Lemma run_app (a b : list Call) (st : State) :
  run (a ++ b) st = run b (run a st).
Proof. unfold run. apply fold_left_app. Qed.

(** A tick whose response is running moves the progress to
    [min (prev + 10) 90], whatever the captured flag. *)
Lemma tick_running_progress jid ar d st :
  Api.status d = JStr "running" ->
  analysisProgress (run (tick url jid ar (Resolved d)) st)
  = Z.min (analysisProgress st + 10) 90.
Proof.
  intros Hs. unfold tick, fetchResults_request, fetchResults_settled.
  rewrite Hs. destruct ar; reflexivity.
Qed.

Lemma tick_running_reschedules jid ar d :
  Api.status d = JStr "running" ->
  reschedules (tick url jid ar (Resolved d)) = ar.
Proof.
  intros Hs. unfold tick, fetchResults_request, fetchResults_settled.
  rewrite Hs. destruct ar; reflexivity.
Qed.

Lemma tick_error_reschedules jid ar d :
  Api.status d = JStr "error" ->
  reschedules (tick url jid ar (Resolved d)) = false.
Proof.
  intros Hs. unfold tick, fetchResults_request, fetchResults_settled.
  rewrite Hs. reflexivity.
Qed.

Lemma poll_running_ticks jid ar outs :
  Forall running outs ->
  Forall (fun t => forall st,
            analysisProgress (run t st) = Z.min (analysisProgress st + 10) 90)
         (poll url jid ar outs).
Proof.
  induction 1 as [|o outs (d & -> & Hd) _ IH]; simpl.
  - constructor.
  - constructor.
    + intros st. apply tick_running_progress, Hd.
    + destruct (reschedules _); [exact IH | constructor].
Qed.

Lemma progress_after_bumps ticks :
  Forall (fun t => forall st,
            analysisProgress (run t st) = Z.min (analysisProgress st + 10) 90)
         ticks ->
  forall n st, (n <= length ticks)%nat -> analysisProgress st <= 90 ->
  progress_after ticks n st = Z.min (analysisProgress st + 10 * Z.of_nat n) 90.
Proof.
  unfold progress_after.
  induction 1 as [|t ticks Ht _ IH]; intros n st Hn Hp.
  - destruct n; simpl in *; [| lia]. unfold run; simpl. lia.
  - destruct n as [|n]; simpl in *.
    + unfold run; simpl. lia.
    + rewrite run_app, IH by (rewrite ?Ht; lia). rewrite Ht. lia.
Qed.

Lemma pollingEffect_running_ticks st outs :
  Forall running outs ->
  Forall (fun t => forall st',
            analysisProgress (run t st') = Z.min (analysisProgress st' + 10) 90)
         (pollingEffect url st outs).
Proof.
  intros H. unfold pollingEffect. destruct (job_id st) as [jid|]; [| constructor].
  destruct (_ && _); [apply poll_running_ticks, H | constructor].
Qed.


(** C2 (as the code has it). In a polling run in which every tick's
    response is running, started with a progress of at most 90 (the page
    starts at 0), the progress after [n] ticks is
    [min (start + 10 * n) 90]: it never exceeds 90, never decreases, grows
    by exactly 10 in a tick that starts at 80 or less and is 90 after a
    tick that starts at 80 or more, where it then stays.  Any tick leaves
    the progress at [min (prev + 10) 90] (running), at 0 (error status or
    failed request) or at 100 (any other status). *)
Theorem C2_progress_capped (st : State) (outs : list Outcome) (n : nat) :
  Forall running outs ->
  analysisProgress st <= 90 ->
  (n <= length (pollingEffect url st outs))%nat ->
  let ticks := pollingEffect url st outs in
  progress_after ticks n st = Z.min (analysisProgress st + 10 * Z.of_nat n) 90
  /\ progress_after ticks n st <= 90
  /\ ((S n <= length ticks)%nat ->
        progress_after ticks n st <= progress_after ticks (S n) st
        /\ (progress_after ticks n st <= 80 ->
            progress_after ticks (S n) st = progress_after ticks n st + 10)
        /\ (80 <= progress_after ticks n st ->
            progress_after ticks (S n) st = 90))
  /\ (forall jid ar o st',
        analysisProgress (run (tick url jid ar o) st')
        = match o with
          | Resolved d =>
              if strict_eq_str (Api.status d) "running"
              then Z.min (analysisProgress st' + 10) 90
              else if strict_eq_str (Api.status d) "error" then 0 else 100
          | Rejected _ => 0
          end).
Proof.
  intros Hrun Hp Hn ticks.
  pose proof (progress_after_bumps ticks (pollingEffect_running_ticks st outs Hrun))
    as Hform.
  split; [apply Hform; assumption |].
  split; [rewrite Hform by assumption; lia |].
  split.
  - intros HS. rewrite (Hform (S n)), (Hform n) by assumption.
    repeat split; lia.
  - intros jid ar o st'. unfold tick, fetchResults_request.
    destruct o as [d|err]; cbn [fetchResults_settled]; [| reflexivity].
    destruct (strict_eq_str (Api.status d) "running");
      [destruct ar; reflexivity |].
    destruct (strict_eq_str (Api.status d) "error"); reflexivity.
Qed.

(** C3. A tick whose response status is neither running nor error is a
    completion: the tick stores the received payload itself as the result,
    clears loading, sets the progress to 100, arms no timer, and the
    polling run ends with this tick however many further responses would
    have been available. *)
Theorem C3_other_status_completes
    (jid : string) (ar : bool) (d : Api.AnalysisResult) (st : State)
    (more : list Outcome) :
  Api.status d <> JStr "running" ->
  Api.status d <> JStr "error" ->
  fetchResults_settled ar (Resolved d)
  = [ setResult d; setLoading false; setAnalysisProgress 100 ]
  /\ result (run (tick url jid ar (Resolved d)) st) = Some d
  /\ analysisProgress (run (tick url jid ar (Resolved d)) st) = 100
  /\ loading (run (tick url jid ar (Resolved d)) st) = false
  /\ error (run (tick url jid ar (Resolved d)) st) = error st
  /\ reschedules (tick url jid ar (Resolved d)) = false
  /\ poll url jid ar (Resolved d :: more) = [ tick url jid ar (Resolved d) ].
Proof.
  intros Hr He. apply strict_eq_str_false in Hr, He.
  assert (Hs : fetchResults_settled ar (Resolved d)
               = [ setResult d; setLoading false; setAnalysisProgress 100 ]).
  { cbn [fetchResults_settled]. rewrite Hr, He. reflexivity. }
  split; [exact Hs |].
  cbn [poll]. unfold tick, fetchResults_request. rewrite Hs.
  repeat split.
Qed.

(** C4. When the ticks of a polling run return running, running, error,
    the run consists of exactly these three ticks; among all their calls
    there is exactly one [setError], whose text is "Analysis failed: "
    followed by the backend's error text; afterwards the progress is 0 and
    loading is cleared; the third tick arms no timer, so that no further
    tick runs whatever responses would follow. *)
Theorem C4_running_running_error
    (st : State) (jid : string) (d1 d2 d3 : Api.AnalysisResult)
    (more : list Outcome) :
  job_id st = Some jid -> jid <> "" ->
  isMounted st = true -> autoRefresh st = true ->
  Api.status d1 = JStr "running" ->
  Api.status d2 = JStr "running" ->
  Api.status d3 = JStr "error" ->
  let ticks :=
    pollingEffect url st (Resolved d1 :: Resolved d2 :: Resolved d3 :: more) in
  ticks = [ tick url jid true (Resolved d1); tick url jid true (Resolved d2);
            tick url jid true (Resolved d3) ]
  /\ List.filter is_setError (concat ticks)
     = [ setError (JStr ("Analysis failed: " +:+ ToString (Api.error d3))) ]
  /\ (forall text, Api.error d3 = JStr text ->
        error (run (concat ticks) st) = JStr ("Analysis failed: " +:+ text))
  /\ analysisProgress (run (concat ticks) st) = 0
  /\ loading (run (concat ticks) st) = false
  /\ result (run (concat ticks) st) = result st
  /\ reschedules (tick url jid true (Resolved d3)) = false.
Proof.
  intros Hj Hne Hm Ha H1 H2 H3 ticks.
  assert (Hticks : ticks
            = [ tick url jid true (Resolved d1); tick url jid true (Resolved d2);
                tick url jid true (Resolved d3) ]).
  { subst ticks. unfold pollingEffect. rewrite Hj, Hm, Ha.
    apply String.eqb_neq in Hne. rewrite Hne. cbn [negb andb poll].
    rewrite !tick_running_reschedules by assumption.
    rewrite tick_error_reschedules by assumption. reflexivity. }
  rewrite Hticks. unfold tick, fetchResults_request.
  cbn [fetchResults_settled]. rewrite H1, H2, H3.
  repeat split. intros text ->. reflexivity.
Qed.

End Poller.


(** Outside the range of C2: after a completed analysis (progress 100) a
    running tick of a later polling run brings the progress down to 90. *)
Example running_tick_after_completion :
  Results.analysisProgress Samples.results_done = 100
  /\ Results.analysisProgress
       (Results.run (Results.tick Samples.API_URL "42" true
                       (Results.Resolved Samples.payload_running))
                    Samples.results_done)
     = 90.
Proof. split; reflexivity. Qed.

(** C2 (as stated) fails: in a run of ten running ticks from the page's
    initial progress 0, the tenth tick leaves the progress at 90, where the
    ninth had put it, instead of adding 10. *)
Lemma C2_tenth_tick_adds_nothing :
  let outs := Samples.ten_running in
  let ticks := Results.pollingEffect Samples.API_URL Samples.results_mounted outs in
  Forall Observe.running outs
  /\ length ticks = 10%nat
  /\ Observe.progress_after ticks 0 Samples.results_mounted = 0
  /\ Observe.progress_after ticks 9 Samples.results_mounted = 90
  /\ Observe.progress_after ticks 10 Samples.results_mounted = 90
  /\ Observe.progress_after ticks 10 Samples.results_mounted
     <> Observe.progress_after ticks 9 Samples.results_mounted + 10.
Proof.
  cbn zeta. split.
  - simpl.
    repeat (constructor;
            [exists Samples.payload_running; split; reflexivity |]).
    constructor.
  - repeat split. vm_compute. discriminate.
Qed.

(** C2 (as the code has it), on ten running ticks from the mounted page. *)
Lemma C2_progress_capped_witness :
  Forall Observe.running Samples.ten_running
  /\ Results.analysisProgress Samples.results_mounted <= 90
  /\ (10 <= length (Results.pollingEffect Samples.API_URL
                      Samples.results_mounted Samples.ten_running))%nat
  /\ Observe.progress_after
       (Results.pollingEffect Samples.API_URL Samples.results_mounted
          Samples.ten_running)
       10 Samples.results_mounted
     = Z.min (Results.analysisProgress Samples.results_mounted
              + 10 * Z.of_nat 10) 90.
Proof.
  assert (H1 : Forall Observe.running Samples.ten_running).
  { unfold Samples.ten_running. simpl.
    repeat (constructor;
            [exists Samples.payload_running; split; reflexivity |]).
    constructor. }
  assert (H2 : Results.analysisProgress Samples.results_mounted <= 90).
  { simpl. lia. }
  assert (H3 : (10 <= length (Results.pollingEffect Samples.API_URL
                    Samples.results_mounted Samples.ten_running))%nat).
  { simpl. lia. }
  split; [exact H1 |]. split; [exact H2 |]. split; [exact H3 |].
  exact (proj1 (C2_progress_capped Samples.API_URL Samples.results_mounted
                  Samples.ten_running 10 H1 H2 H3)).
Defined.

(** C3, on a response whose status is done. *)
Lemma C3_other_status_completes_witness :
  Api.status Samples.payload_done <> JStr "running"
  /\ Api.status Samples.payload_done <> JStr "error"
  /\ Results.result
       (Results.run (Results.tick Samples.API_URL "42" true
                       (Results.Resolved Samples.payload_done))
                    Samples.results_mounted)
     = Some Samples.payload_done.
Proof.
  assert (H1 : Api.status Samples.payload_done <> JStr "running")
    by (simpl; discriminate).
  assert (H2 : Api.status Samples.payload_done <> JStr "error")
    by (simpl; discriminate).
  split; [exact H1 |]. split; [exact H2 |].
  exact (proj1 (proj2 (C3_other_status_completes Samples.API_URL "42" true
                         Samples.payload_done Samples.results_mounted
                         [] H1 H2))).
Defined.

(** C4, on the responses running, running, error followed by one more
    response that is never requested. *)
Lemma C4_running_running_error_witness :
  Results.job_id Samples.results_mounted = Some "42"
  /\ "42" <> ""
  /\ Results.isMounted Samples.results_mounted = true
  /\ Results.autoRefresh Samples.results_mounted = true
  /\ Api.status Samples.payload_running = JStr "running"
  /\ Api.status Samples.payload_error = JStr "error"
  /\ Results.pollingEffect Samples.API_URL Samples.results_mounted
       [ Results.Resolved Samples.payload_running;
         Results.Resolved Samples.payload_running;
         Results.Resolved Samples.payload_error;
         Results.Resolved Samples.payload_done ]
     = [ Results.tick Samples.API_URL "42" true
           (Results.Resolved Samples.payload_running);
         Results.tick Samples.API_URL "42" true
           (Results.Resolved Samples.payload_running);
         Results.tick Samples.API_URL "42" true
           (Results.Resolved Samples.payload_error) ].
Proof.
  assert (Hne : "42" <> "") by discriminate.
  repeat (split; [first [reflexivity | exact Hne] |]).
  exact (proj1 (C4_running_running_error Samples.API_URL
                  Samples.results_mounted "42" Samples.payload_running
                  Samples.payload_running Samples.payload_error
                  [Results.Resolved Samples.payload_done]
                  eq_refl Hne eq_refl eq_refl eq_refl eq_refl eq_refl)).
Defined.

(** ** The pull-request actions *)

Section Actions.

Import Results Observe.

Variable url : string.

Lemma result_field_truthy field st :
  truthy (result_field field st) = true ->
  exists r, result st = Some r /\ field r <> JNull /\ field r <> JUndefined.
Proof.
  unfold result_field. destruct (result st) as [r|]; [| discriminate].
  intros H. exists r. split; [reflexivity |].
  destruct (truthy_not_nullish _ H). split; assumption.
Qed.

(** C8. Each of [createPR], [createEnhancementPR] and [createDeploymentPR]
    posts its request exactly when the token is a non-empty string and its
    own field of the result ([patch], [enhancement_patch],
    [deployment_patch]) is truthy, hence only when both are non-null.
    Without a token the only call is the "Not authenticated" error, also
    when the field is present; with a token and the field absent the only
    call is the action's own validation error; in neither case is a
    request made. *)
Theorem C8_pr_actions_gated (st : State) :
  gated url (createPR url) Api.patch "/api/pr" (setCreatingPR true)
        "No patch available" st
  /\ gated url (createEnhancementPR url) Api.enhancement_patch
           "/api/pr-enhancements" (setCreatingEnhancementPR true)
           "No enhancement suggestions available" st
  /\ gated url (createDeploymentPR url) Api.deployment_patch
           "/api/pr-deployment" (setCreatingDeploymentPR true)
           "No deployment configuration available" st.
Proof.
  unfold gated, createPR, createEnhancementPR, createDeploymentPR.
  repeat match goal with |- _ /\ _ => split end;
    try (intros ->; reflexivity);
    try (intros -> [-> | ->]; reflexivity);
    try (destruct (falsy_str (token st)) eqn:Ht; cbn [existsb is_network orb];
         [ first [ split; [discriminate | intros [? _]; discriminate]
                 | discriminate
                 | intros _; eexists; split; reflexivity ]
         | match goal with
           | |- context [truthy (result_field ?f st)] =>
               destruct (truthy (result_field f st)) eqn:Hf
           end; cbn [negb existsb is_network orb];
           first [ split; [intros _; split; reflexivity
                          | reflexivity ]
                 | split; [discriminate | intros [_ ?]; discriminate]
                 | intros _; split;
                   [ apply falsy_str_false in Ht; destruct Ht as (t & -> & _);
                     eexists; reflexivity
                   | apply result_field_truthy; exact Hf ]
                 | discriminate
                 | intros _; reflexivity
                 | intros _; eexists; split; reflexivity ] ]).
Qed.

End Actions.

(** The spec's example for C8: a patch is there but nobody is signed in. *)
Example createPR_without_token :
  let st := Results.run [Results.setToken None] Samples.results_done in
  Results.result_field Api.patch st = JStr "--- a/app.py"
  /\ Results.createPR Samples.API_URL st
     = [ Results.setError (JStr "Not authenticated. Please login first.") ]
  /\ existsb Results.is_network (Results.createPR Samples.API_URL st) = false.
Proof. cbn zeta. repeat split. Qed.

Example createPR_with_token_and_patch :
  Results.createPR Samples.API_URL Samples.results_done
  = [ Results.setCreatingPR true;
      Results.axios_post "http://localhost:8000/api/pr"
        {| Results.req_job_id := Some "42";
           Results.access_token := Some "gho_abc" |} ].
Proof. reflexivity. Qed.

(** ** The job launcher *)

Section Launcher.

Import Dashboard.

Variable url : string.
Variable stringify : JsVal -> string.

Lemma submit_posts_once st repo :
  List.filter is_network (submit url st repo)
  = [ axios_post
        (url +:+ "/api"
             +:+ (if String.eqb (analysisMode st) "your-repos"
                  then "/analyze-repo" else "/analyze"))
        {| repo_key := if String.eqb (analysisMode st) "your-repos"
                       then "repo_full_name" else "repo_url";
           repo := repo; access_token := token st; auto_issue := false;
           auto_pr := false; hosting_provider := hosting st;
           gemini_api_key := apiKey st;
           model_preference := modelPreference st |} ].
Proof. reflexivity. Qed.

(** The gate of [analyze]: it makes no request and only sets the error
    cell when the token is missing (or empty), when the owned-repository
    form is active with an empty selection, or when the other form is
    active with an identifier that is empty after trimming; it posts,
    exactly once, if and only if none of these holds, and then to the
    endpoint and with the repository of the active form. *)
Theorem analyze_validates (st : State) :
  (falsy_str (token st) = true ->
     analyze url st
     = [ setError (JStr "Not authenticated. Please login first.") ])
  /\ (falsy_str (token st) = false ->
      analysisMode st = "your-repos" -> selectedRepo st = "" ->
      analyze url st = [ setError (JStr "Please select a repository") ])
  /\ (falsy_str (token st) = false ->
      analysisMode st <> "your-repos" -> trim (customRepo st) = "" ->
      analyze url st
      = [ setError (JStr "Please enter a public repository (owner/repo)") ])
  /\ (existsb is_network (analyze url st) = true
      <-> falsy_str (token st) = false
          /\ (analysisMode st = "your-repos" -> selectedRepo st <> "")
          /\ (analysisMode st <> "your-repos" -> trim (customRepo st) <> ""))
  /\ (existsb is_network (analyze url st) = false ->
      exists text, text <> ""
        /\ analyze url st = [ setError (JStr text) ]
        /\ error (run (analyze url st) st) = JStr text)
  /\ (existsb is_network (analyze url st) = true ->
      analyze url st
      = submit url st (if String.eqb (analysisMode st) "your-repos"
                       then selectedRepo st else customRepo st)
      /\ length (List.filter is_network (analyze url st)) = 1%nat).
Proof.
  unfold analyze.
  destruct (falsy_str (token st)) eqn:Ht;
    [| destruct (String.eqb_spec (analysisMode st) "your-repos") as [Hm|Hm];
       [ destruct (String.eqb_spec (selectedRepo st) "") as [Hs|Hs]
       | destruct (String.eqb_spec (trim (customRepo st)) "") as [Hs|Hs] ] ];
  repeat match goal with |- _ /\ _ => split end;
  try solve [ discriminate | reflexivity
            | intros; congruence
            | intros; exfalso; congruence
            | split; [discriminate | intros (? & ?); exfalso; congruence]
            | intros _; eexists; split; [| split; reflexivity]; discriminate
            | intros _; split; reflexivity
            | split; [intros _; repeat split; intros; congruence | reflexivity]
            | split; [discriminate
                     | intros (_ & H1 & H2); exfalso;
                       first [exact (H1 Hm Hs) | exact (H2 Hm Hs)]] ].
Qed.

Lemma includes_rate_limit_marker : includes rate_limit_message "429" = true.
Proof. vm_compute. reflexivity. Qed.

(** The text the [catch] block of [analyze] chooses for the error cell.
    When a submission fails with HTTP status 429, or with a detail string
    (the server's detail, else the error's message, else "Analysis
    failed") that contains 429, it is the rate-limit message.  For every
    other failure it is the server's detail when it is there (serialised
    when it is an object), else the error's message, else "Analysis
    failed".  The rate-limit message differs from the fallback text and
    from every detail string chosen on the other path. *)
Theorem rate_limit_message_chosen (err : Api.AxiosError) (st : State) :
  let detail :=
    or_else (or_else (Api.response_detail err) (Api.message err))
            (JStr "Analysis failed") in
  let shown := error (run (analyze_settled stringify (Rejected err)) st) in
  (Api.response_status err = JNum 429
     \/ (exists s, detail = JStr s /\ includes s "429" = true) ->
   shown = JStr rate_limit_message)
  /\ (Api.response_status err <> JNum 429 ->
      (forall s, detail = JStr s -> includes s "429" = false) ->
      shown = (if typeof_object detail then JStr (stringify detail) else detail)
      /\ (forall s, detail = JStr s ->
            shown = JStr s /\ s <> rate_limit_message))
  /\ (truthy (Api.response_detail err) = true ->
      detail = Api.response_detail err)
  /\ (truthy (Api.response_detail err) = false ->
      truthy (Api.message err) = true -> detail = Api.message err)
  /\ (truthy (Api.response_detail err) = false ->
      truthy (Api.message err) = false -> detail = JStr "Analysis failed")
  /\ rate_limit_message <> "Analysis failed"
  /\ existsb is_network (analyze_settled stringify (Rejected err)) = false.
Proof.
  cbn zeta. cbn [analyze_settled run fold_left apply_call error].
  unfold failure_detail.
  set (detail := or_else (or_else (Api.response_detail err) (Api.message err))
                         (JStr "Analysis failed")).
  repeat match goal with |- _ /\ _ => split end.
  - intros [H429 | (s & Hs & Hinc)].
    + rewrite H429. reflexivity.
    + rewrite Hs, Hinc, orb_true_r. reflexivity.
  - intros Hst Hno.
    assert (Hnum : strict_eq_num (Api.response_status err) 429 = false).
    { destruct (Api.response_status err) as [| |b|z|s|l|l]; try reflexivity.
      simpl. apply Z.eqb_neq. intros ->. apply Hst. reflexivity. }
    rewrite Hnum. cbn [orb].
    destruct detail as [| |b|z|s|l|l] eqn:Hd; try (split; [reflexivity | discriminate]).
    rewrite (Hno s eq_refl). split; [reflexivity |].
    intros s' [= <-]. split; [reflexivity |].
    intros ->. specialize (Hno _ eq_refl).
    rewrite includes_rate_limit_marker in Hno. discriminate Hno.
  - intros H. subst detail. unfold or_else. rewrite H. rewrite H. reflexivity.
  - intros H1 H2. subst detail. unfold or_else. rewrite H1, H2. reflexivity.
  - intros H1 H2. subst detail. unfold or_else. rewrite H1, H2. reflexivity.
  - discriminate.
  - reflexivity.
Qed.

End Launcher.

(** The spec's example for C6: the owned-repository form with nothing
    selected, and the public form with only blanks typed in. *)
Example analyze_without_selection :
  let st := Dashboard.run [Dashboard.setToken (Some "gho_abc")] Dashboard.initial in
  Dashboard.analyze Samples.API_URL st
  = [ Dashboard.setError (JStr "Please select a repository") ].
Proof. reflexivity. Qed.

Example analyze_blank_public :
  Dashboard.analyze Samples.API_URL Samples.dashboard_blank_public
  = [ Dashboard.setError
        (JStr "Please enter a public repository (owner/repo)") ].
Proof. vm_compute. reflexivity. Qed.

Example analyze_public_posts :
  let st := Dashboard.run [Dashboard.setCustomRepo " octocat/hello "]
                          Samples.dashboard_blank_public in
  List.filter Dashboard.is_network (Dashboard.analyze Samples.API_URL st)
  = [ Dashboard.axios_post "http://localhost:8000/api/analyze"
        {| Dashboard.repo_key := "repo_url";
           Dashboard.repo := " octocat/hello ";
           Dashboard.access_token := Some "gho_abc";
           Dashboard.auto_issue := false; Dashboard.auto_pr := false;
           Dashboard.hosting_provider := JNull;
           Dashboard.gemini_api_key := "";
           Dashboard.model_preference := "gemini-2.5-flash" |} ].
Proof. vm_compute. reflexivity. Qed.

(** The spec's example for C7: HTTP 429 against HTTP 500. *)
Example analyze_failure_429 :
  Dashboard.error
    (Dashboard.run
       (Dashboard.analyze_settled (fun _ => "{}")
          (Dashboard.Rejected Samples.too_many_requests))
       Samples.dashboard_blank_public)
  = JStr Dashboard.rate_limit_message.
Proof. reflexivity. Qed.

Example analyze_failure_500 :
  Dashboard.error
    (Dashboard.run
       (Dashboard.analyze_settled (fun _ => "{}")
          (Dashboard.Rejected Samples.server_error))
       Samples.dashboard_blank_public)
  = JStr "Repository not found".
Proof. vm_compute. reflexivity. Qed.

(** ** Sign-out *)

(** The dashboard's sign-out empties the storage. *)
Lemma dashboard_logout_clears (b : Browser) (k : string) :
  getItem k (Dashboard.handleLogout b) = None.
Proof. unfold getItem. simpl. apply lookup_empty. Qed.

(** The results page's sign-out removes five named keys and keeps every
    other key of the storage. *)
Lemma results_logout_removes (b : Browser) (k : string) :
  getItem k (Results.handleLogout b)
  = if bool_decide (k ∈ ["access_token"; "user_email"; "user_name";
                         "user_id"; "user_login"])
    then None else getItem k b.
Proof.
  unfold getItem, Results.handleLogout. simpl.
  rewrite !lookup_delete.
  case_bool_decide as Hk.
  - repeat case_decide; try reflexivity.
    exfalso. rewrite !elem_of_cons, elem_of_nil in Hk. intuition congruence.
  - repeat case_decide; try reflexivity; subst k; exfalso; apply Hk;
      rewrite !elem_of_cons; auto 10.
Qed.

(** What the callback stored is gone after either sign-out. *)
Lemma logout_removes_callback_session (tok user : option string) (k : string) :
  let b := Callback.storeSession tok user
             {| localStorage := ∅; location := "/callback" |} in
  getItem k (Results.handleLogout b) = None
  /\ getItem k (Dashboard.handleLogout b) = None.
Proof.
  cbn zeta. split; [| apply dashboard_logout_clears].
  rewrite results_logout_removes. case_bool_decide as Hk; [reflexivity |].
  unfold Callback.storeSession, getItem.
  destruct (falsy_str tok || falsy_str user); [apply lookup_empty |].
  destruct tok as [t|], user as [u|]; simpl; try apply lookup_empty.
  rewrite !lookup_insert_ne; [apply lookup_empty | | |];
    intros <-; apply Hk; rewrite !elem_of_cons; auto 10.
Qed.

(** C9 (the results page misses a key). After the results page's sign-out
    on a storage that holds a session with an avatar, the credential and
    the user name are gone but the avatar URL is still stored, and the
    dashboard's session effect reads it back; the dashboard's own sign-out
    leaves nothing. *)
Theorem C9_results_logout_keeps_avatar :
  getItem "access_token" Samples.signed_in = Some "gho_abc"
  /\ getItem "access_token" (Results.handleLogout Samples.signed_in) = None
  /\ getItem "user_name" (Results.handleLogout Samples.signed_in) = None
  /\ getItem "user_avatar" (Results.handleLogout Samples.signed_in)
     = Some "https://avatars.example/u/1"
  /\ In (Dashboard.setAvatarUrl "https://avatars.example/u/1")
        (Dashboard.mountEffect (Results.handleLogout Samples.signed_in))
  /\ getItem "user_avatar" (Dashboard.handleLogout Samples.signed_in) = None.
Proof.
  assert (Ha : getItem "user_avatar" (Results.handleLogout Samples.signed_in)
               = Some "https://avatars.example/u/1")
    by (rewrite results_logout_removes; reflexivity).
  split; [reflexivity |].
  split; [rewrite results_logout_removes; reflexivity |].
  split; [rewrite results_logout_removes; reflexivity |].
  split; [exact Ha |].
  split; [| apply dashboard_logout_clears].
  unfold Dashboard.mountEffect. rewrite Ha. simpl. auto.
Qed.

(** * Further properties of the pages *)

(** ** The shape of a polling run *)

Section PollingRuns.

Import Results ResultsView.

Variable url : string.

Lemma or_else_truthy (a b : JsVal) :
  truthy b = true -> truthy (or_else a b) = true.
Proof. intros H. unfold or_else. destruct (truthy a) eqn:Ha; assumption. Qed.

Lemma or_else_left (a b : JsVal) : truthy a = true -> or_else a b = a.
Proof. intros H. unfold or_else. rewrite H. reflexivity. Qed.

Lemma or_else_right (a b : JsVal) : truthy a = false -> or_else a b = b.
Proof. intros H. unfold or_else. rewrite H. reflexivity. Qed.

Lemma tick_reschedules_iff jid ar o :
  reschedules (tick url jid ar o) = ar && is_running o.
Proof.
  unfold tick, fetchResults_request.
  destruct o as [d|err]; cbn [fetchResults_settled is_running].
  - destruct (strict_eq_str (Api.status d) "running").
    + destruct ar; reflexivity.
    + destruct (strict_eq_str (Api.status d) "error"), ar; reflexivity.
  - destruct ar; reflexivity.
Qed.

Lemma consumed_length outs : (length (consumed outs) <= length outs)%nat.
Proof.
  induction outs as [|o outs IH]; simpl; [lia |].
  destruct (is_running o); simpl; lia.
Qed.

Lemma poll_length_le jid ar outs :
  (length (poll url jid ar outs) <= length outs)%nat.
Proof.
  induction outs as [|o outs IH]; cbn [poll length]; [lia |].
  destruct (reschedules _); cbn [length]; lia.
Qed.

(** A polling run with [autoRefresh] captured as true consists of one tick
    for each response up to and including the first that is not running
    (a finished analysis, an error status or a failed request), and of
    nothing after it; with [autoRefresh] captured as false it is the single
    first tick.  It never has more ticks than responses, and every tick
    before its last answered a running response. *)
Theorem poll_stops_at_first_settled (jid : string) (ar : bool)
    (outs : list Outcome) :
  poll url jid ar outs
  = List.map (tick url jid ar) (if ar then consumed outs else take 1 outs)
  /\ (length (poll url jid ar outs) <= length outs)%nat
  /\ (forall i o, consumed outs !! i = Some o ->
        (S i < length (consumed outs))%nat -> is_running o = true).
Proof.
  split; [| split].
  - induction outs as [|o outs IH]; [destruct ar; reflexivity |].
    cbn [poll]. rewrite tick_reschedules_iff.
    destruct ar; cbn [andb].
    + cbn [consumed List.map]. destruct (is_running o); [| reflexivity].
      rewrite IH. reflexivity.
    + reflexivity.
  - apply poll_length_le.
  - induction outs as [|o outs IH]; intros i o' Hi Hlen; [discriminate Hi |].
    cbn [consumed] in Hi, Hlen. destruct (is_running o) eqn:Ho.
    + destruct i as [|i]; cbn in Hi, Hlen.
      * injection Hi as <-. exact Ho.
      * apply (IH i); [exact Hi | lia].
    + destruct i as [|i]; cbn in Hi, Hlen; [lia | discriminate Hi].
Qed.

(** A request that fails (no answer, a failure status, or an exception
    while the answer is read) ends the polling run: the tick arms no
    timer, sets the progress to 0 and clears loading, keeps the result as
    it was, and shows the server's detail if that is truthy, else the
    error's own message if that is truthy, else "Failed to fetch results";
    what it shows is never empty. *)
Theorem failed_request_ends_polling (jid : string) (ar : bool)
    (err : Api.AxiosError) (st : State) (more : list Outcome) :
  let t := tick url jid ar (Rejected err) in
  let shown := error (run t st) in
  poll url jid ar (Rejected err :: more) = [ t ]
  /\ reschedules t = false
  /\ analysisProgress (run t st) = 0
  /\ loading (run t st) = false
  /\ result (run t st) = result st
  /\ truthy shown = true
  /\ (truthy (Api.response_detail err) = true ->
      shown = Api.response_detail err)
  /\ (truthy (Api.response_detail err) = false ->
      truthy (Api.message err) = true -> shown = Api.message err)
  /\ (truthy (Api.response_detail err) = false ->
      truthy (Api.message err) = false ->
      shown = JStr "Failed to fetch results").
Proof.
  cbn zeta. cbn [poll]. rewrite tick_reschedules_iff. cbn [is_running].
  rewrite andb_false_r.
  unfold tick, fetchResults_request. cbn [fetchResults_settled].
  unfold run. cbn [fold_left app apply_call error analysisProgress loading
                   result].
  repeat match goal with |- _ /\ _ => split end; try reflexivity.
  - apply or_else_truthy. reflexivity.
  - intros H. rewrite (or_else_left _ (Api.message err)) by exact H.
    apply or_else_left, H.
  - intros H1 H2. rewrite (or_else_right _ (Api.message err)) by exact H1.
    apply or_else_left, H2.
  - intros H1 H2. rewrite (or_else_right _ (Api.message err)) by exact H1.
    apply or_else_right, H2.
Qed.

Lemma poll_network_calls jid ar outs :
  List.filter is_network (concat (poll url jid ar outs))
  = repeat (axios_get (url +:+ "/api/results/" +:+ jid))
           (length (poll url jid ar outs)).
Proof.
  induction outs as [|o outs IH]; [reflexivity |].
  cbn [poll concat length repeat].
  rewrite List.filter_app.
  assert (Ht : List.filter is_network (tick url jid ar o)
               = [ axios_get (url +:+ "/api/results/" +:+ jid) ]).
  { unfold tick, fetchResults_request.
    destruct o as [d|err]; cbn [fetchResults_settled];
      [destruct (strict_eq_str (Api.status d) "running");
       [destruct ar | destruct (strict_eq_str (Api.status d) "error")] |];
      reflexivity. }
  rewrite Ht. destruct (reschedules _).
  - rewrite IH. reflexivity.
  - reflexivity.
Qed.

(** The polling effect does nothing without a job id or before the page
    is mounted.  Otherwise each of its ticks makes exactly one request,
    the GET of the job's results, so that a run makes as many requests as
    it has ticks and at most as many as there are responses.  The token
    plays no part: the run is the same whatever token the page holds. *)
Theorem polling_one_request_per_tick (st : State) (outs : list Outcome) :
  (falsy_str (job_id st) = true \/ isMounted st = false ->
     pollingEffect url st outs = [])
  /\ (forall jid, job_id st = Some jid ->
        List.filter is_network (concat (pollingEffect url st outs))
        = repeat (axios_get (url +:+ "/api/results/" +:+ jid))
                 (length (pollingEffect url st outs)))
  /\ (length (pollingEffect url st outs) <= length outs)%nat
  /\ (forall t, pollingEffect url (apply_call st (setToken t)) outs
                = pollingEffect url st outs).
Proof.
  unfold pollingEffect. repeat match goal with |- _ /\ _ => split end.
  - intros [H | H].
    + destruct (job_id st) as [jid|]; [| reflexivity].
      simpl in H. rewrite H. reflexivity.
    + rewrite H. destruct (job_id st) as [jid|]; [| reflexivity].
      destruct (negb _); reflexivity.
  - intros jid ->. destruct (_ && _); [apply poll_network_calls | reflexivity].
  - destruct (job_id st) as [jid|]; [| simpl; lia].
    destruct (_ && _); [| simpl; lia].
    apply poll_length_le.
  - intros t. reflexivity.
Qed.

End PollingRuns.

(** ** What the results page shows *)

Section ResultsScreens.

Import Results ResultsView.

Variable url : string.

Lemma run_nil (st : State) : run [] st = st.
Proof. reflexivity. Qed.

(** No handler of the page replaces a shown error by an empty one. *)
Lemma handles_keeps_error st cs :
  handles url st cs -> truthy (error st) = true ->
  truthy (error (run cs st)) = true.
Proof.
  intros H Herr. pose proof or_else_truthy as Hor.
  destruct H as [b|jid|ar o| | |o| |o| |o|issue flag|o]; unfold run.
  - unfold mountEffect. destruct (falsy_str _); exact Herr.
  - exact Herr.
  - destruct o as [d|err]; cbn [fetchResults_settled].
    + destruct (strict_eq_str (Api.status d) "running");
        [destruct ar; exact Herr |].
      destruct (strict_eq_str (Api.status d) "error");
        [reflexivity | exact Herr].
    + cbn. apply Hor. reflexivity.
  - exact Herr.
  - unfold createPR. destruct (falsy_str _); [reflexivity |].
    destruct (negb _); [reflexivity | exact Herr].
  - destruct o as [body|err]; cbn; [exact Herr | apply Hor; reflexivity].
  - unfold createEnhancementPR. destruct (falsy_str _); [reflexivity |].
    destruct (negb _); [reflexivity | exact Herr].
  - destruct o as [body|err]; cbn; [exact Herr | apply Hor; reflexivity].
  - unfold createDeploymentPR. destruct (falsy_str _); [reflexivity |].
    destruct (negb _); [reflexivity | exact Herr].
  - destruct o as [body|err]; cbn; [exact Herr | apply Hor; reflexivity].
  - unfold IssueAction.createIssue. cbn [IssueAction.page].
    destruct (falsy_str _); [reflexivity | exact Herr].
  - destruct o as [body|err]; cbn; [exact Herr | apply Hor; reflexivity].
Qed.

Lemma reaches_keeps_error st st' :
  reaches url st st' -> truthy (error st) = true -> truthy (error st') = true.
Proof.
  induction 1 as [st | st cs st' Hh _ IH]; intros Herr; [exact Herr |].
  apply IH, handles_keeps_error; assumption.
Qed.

(** Once the results page holds an error it holds one for good: whatever
    the mount effect, polling ticks, the cleanup, the three pull-request
    actions and the issue action with their continuations do afterwards,
    in any order and any number of times, the error stays non-empty.  None
    of these handlers clears it. *)
Theorem error_is_never_cleared (st st' : State) :
  reaches url st st' ->
  truthy (error st) = true ->
  truthy (error st') = true.
Proof. apply reaches_keeps_error. Qed.



(** Each of the three pull-request actions raises its own in-flight flag
    when it sends its request and its continuation lowers it, after a
    success as after a failure.  A success shows the returned [pr_url] in
    an alert and opens it, and touches neither the error nor the result; a
    failure shows the server's detail if it is truthy and otherwise the
    action's fixed text.  The handlers do not look at the flags: the flag
    of an action leaves what the action does unchanged. *)
Theorem pr_action_flags (st : State) (o : PostOutcome) :
  (existsb is_network (createPR url st) = true ->
     creatingPR (run (createPR url st) st) = true)
  /\ (existsb is_network (createEnhancementPR url st) = true ->
      creatingEnhancementPR (run (createEnhancementPR url st) st) = true)
  /\ (existsb is_network (createDeploymentPR url st) = true ->
      creatingDeploymentPR (run (createDeploymentPR url st) st) = true)
  /\ creatingPR (run (createPR_settled o) st) = false
  /\ creatingEnhancementPR (run (createEnhancementPR_settled o) st) = false
  /\ creatingDeploymentPR (run (createDeploymentPR_settled o) st) = false
  /\ (forall settled,
        In settled [ createPR_settled; createEnhancementPR_settled;
                     createDeploymentPR_settled ] ->
        result (run (settled o) st) = result st
        /\ loading (run (settled o) st) = loading st
        /\ existsb is_network (settled o) = false
        /\ (forall body, o = PostResolved body ->
              error (run (settled o) st) = error st
              /\ In (window_open (assoc "pr_url" body)) (settled o))
        /\ (forall err, o = PostRejected err ->
              truthy (error (run (settled o) st)) = true
              /\ (truthy (Api.response_detail err) = true ->
                  error (run (settled o) st) = Api.response_detail err)))
  /\ (forall err, truthy (Api.response_detail err) = false ->
        error (run (createPR_settled (PostRejected err)) st)
        = JStr "Failed to create PR"
        /\ error (run (createEnhancementPR_settled (PostRejected err)) st)
           = JStr "Failed to create enhancement PR"
        /\ error (run (createDeploymentPR_settled (PostRejected err)) st)
           = JStr "Failed to create deployment PR")
  /\ (forall b,
        createPR url (apply_call st (setCreatingPR b)) = createPR url st
        /\ createEnhancementPR url (apply_call st (setCreatingEnhancementPR b))
           = createEnhancementPR url st
        /\ createDeploymentPR url (apply_call st (setCreatingDeploymentPR b))
           = createDeploymentPR url st).
Proof.
  repeat match goal with |- _ /\ _ => split end.
  - unfold createPR. destruct (falsy_str _); [discriminate |].
    destruct (negb _); [discriminate | reflexivity].
  - unfold createEnhancementPR. destruct (falsy_str _); [discriminate |].
    destruct (negb _); [discriminate | reflexivity].
  - unfold createDeploymentPR. destruct (falsy_str _); [discriminate |].
    destruct (negb _); [discriminate | reflexivity].
  - destruct o; reflexivity.
  - destruct o; reflexivity.
  - destruct o; reflexivity.
  - intros settled Hin. simpl in Hin.
    destruct Hin as [<- | [<- | [<- | []]]];
      (repeat match goal with |- _ /\ _ => split end;
       [ destruct o; reflexivity
       | destruct o; reflexivity
       | destruct o; reflexivity
       | intros body ->; split; [reflexivity | cbn; auto]
       | intros err ->; split;
         [ cbn; apply or_else_truthy; reflexivity
         | intros H; cbn; apply or_else_left, H ] ]).
  - intros err H. cbn. rewrite !(or_else_right _ _ H). repeat split.
  - intros b. repeat split.
Qed.

End ResultsScreens.

(** ** More on the derived statistics *)

(** The enhancement counts by type and the file counts by priority behave
    like the severity counts: each triple adds up to at most the length of
    its array and to exactly that length if and only if every element's
    field is one of the three strings counted.  [totalFiles] is the length
    of [files], 0 when the key is absent, and [analyzedLines] is
    [total_lines] when that is truthy and the number 0 otherwise, so it is
    never null or undefined. *)
Theorem enhancement_and_priority_counts
    (st : Results.State) (r : Api.AnalysisResult) :
  Results.result st = Some r ->
  exists s, Results.calculateStats st = Some s
  /\ Results.totalEnhancements s = length (default_empty (Api.enhancements r))
  /\ (Results.performanceEnhancements s + Results.securityEnhancements s
      + Results.maintainabilityEnhancements s
      <= Results.totalEnhancements s)%nat
  /\ ((Results.performanceEnhancements s + Results.securityEnhancements s
       + Results.maintainabilityEnhancements s
       = Results.totalEnhancements s)%nat
      <-> Forall (fun e => Api.type e = JStr "performance"
                           \/ Api.type e = JStr "security"
                           \/ Api.type e = JStr "maintainability")
                 (default_empty (Api.enhancements r)))
  /\ (Results.highPriorityFiles s + Results.mediumPriorityFiles s
      + Results.lowPriorityFiles s
      <= length (default_empty (Api.file_suggestions r)))%nat
  /\ ((Results.highPriorityFiles s + Results.mediumPriorityFiles s
       + Results.lowPriorityFiles s
       = length (default_empty (Api.file_suggestions r)))%nat
      <-> Forall (fun f => Api.priority f = JStr "high"
                           \/ Api.priority f = JStr "medium"
                           \/ Api.priority f = JStr "low")
                 (default_empty (Api.file_suggestions r)))
  /\ Results.totalFiles s = length (default_empty (Api.files r))
  /\ (truthy (Api.total_lines r) = true ->
      Results.analyzedLines s = Api.total_lines r)
  /\ (truthy (Api.total_lines r) = false -> Results.analyzedLines s = JNum 0)
  /\ Results.analyzedLines s <> JUndefined
  /\ Results.analyzedLines s <> JNull.
Proof.
  intros Hr. unfold Results.calculateStats. rewrite Hr.
  eexists. split; [reflexivity |].
  cbn [Results.performanceEnhancements Results.securityEnhancements
       Results.maintainabilityEnhancements Results.totalEnhancements
       Results.highPriorityFiles Results.mediumPriorityFiles
       Results.lowPriorityFiles Results.totalFiles Results.analyzedLines].
  pose proof (filter3_length
    (fun e => strict_eq_str (Api.type e) "performance")
    (fun e => strict_eq_str (Api.type e) "security")
    (fun e => strict_eq_str (Api.type e) "maintainability")
    (default_empty (Api.enhancements r))) as He.
  destruct He as [Hele Heeq].
  { intros x Hx. apply strict_eq_str_spec in Hx. rewrite Hx. split; reflexivity. }
  { intros x Hx. apply strict_eq_str_spec in Hx. rewrite Hx. reflexivity. }
  pose proof (filter3_length
    (fun f => strict_eq_str (Api.priority f) "high")
    (fun f => strict_eq_str (Api.priority f) "medium")
    (fun f => strict_eq_str (Api.priority f) "low")
    (default_empty (Api.file_suggestions r))) as Hf.
  destruct Hf as [Hfle Hfeq].
  { intros x Hx. apply strict_eq_str_spec in Hx. rewrite Hx. split; reflexivity. }
  { intros x Hx. apply strict_eq_str_spec in Hx. rewrite Hx. reflexivity. }
  split; [reflexivity |]. split; [exact Hele |]. split.
  { rewrite Heeq. apply Forall_iff. intros x.
    rewrite !strict_eq_str_spec. reflexivity. }
  split; [exact Hfle |]. split.
  { rewrite Hfeq. apply Forall_iff. intros x.
    rewrite !strict_eq_str_spec. reflexivity. }
  split; [destruct (Api.files r); reflexivity |].
  split; [intros H; apply or_else_left, H |].
  split; [intros H; apply or_else_right, H |].
  unfold or_else. destruct (truthy (Api.total_lines r)) eqn:Ht.
  - apply truthy_not_nullish, Ht.
  - split; discriminate.
Qed.

(** On the finished sample analysis, which has no [enhancements] key. *)
Lemma enhancement_and_priority_counts_witness :
  Results.result Samples.results_done = Some Samples.payload_done
  /\ exists s, Results.calculateStats Samples.results_done = Some s
       /\ Results.totalFiles s = 1%nat
       /\ Results.totalEnhancements s = 0%nat.
Proof.
  split; [reflexivity |].
  destruct (enhancement_and_priority_counts Samples.results_done
              Samples.payload_done eq_refl)
    as (s & Hs & He & _ & _ & _ & _ & Hf & _).
  exists s. split; [exact Hs |]. split; [exact Hf | exact He].
Defined.

(** ** The session, from the callback to the sign-out *)

Lemma storeSession_lookup (t u : string) (b : Browser) (k : string) :
  t <> "" -> u <> "" ->
  getItem k (Callback.storeSession (Some t) (Some u) b)
  = if decide (k = "access_token") then Some t
    else if decide (k = "user_login") then Some u
    else if decide (k = "user_name") then Some u
    else getItem k b.
Proof.
  intros Ht Hu. unfold Callback.storeSession, getItem. cbn [falsy_str].
  apply String.eqb_neq in Ht, Hu. rewrite Ht, Hu. cbn [orb setItem localStorage].
  rewrite !lookup_insert.
  repeat case_decide; subst; try reflexivity; congruence.
Qed.

(** The callback stores nothing unless both the token and the user name
    are present and non-empty; when they are it sets [access_token] to the
    token and both [user_login] and [user_name] to the user name, and
    leaves every other key of the storage, and the location, as they
    were. *)
Theorem callback_stores_three_keys (tok user : option string) (b : Browser) :
  (falsy_str tok = true \/ falsy_str user = true ->
     Callback.storeSession tok user b = b)
  /\ (forall t u k, tok = Some t -> user = Some u -> t <> "" -> u <> "" ->
        getItem k (Callback.storeSession tok user b)
        = if decide (k = "access_token") then Some t
          else if decide (k = "user_login") then Some u
          else if decide (k = "user_name") then Some u
          else getItem k b)
  /\ location (Callback.storeSession tok user b) = location b.
Proof.
  split; [| split].
  - intros [H | H]; unfold Callback.storeSession; rewrite H;
      [reflexivity | rewrite orb_true_r; reflexivity].
  - intros t u k -> -> Ht Hu. apply storeSession_lookup; assumption.
  - unfold Callback.storeSession. destruct (_ || _); [reflexivity |].
    destruct tok, user; reflexivity.
Qed.

(** What the callback stored is what the pages read back: after a
    callback with a non-empty token and user name, the first effect of the
    results page and of the dashboard sets the token and the user name to
    these two values, marks the page mounted and does not redirect.  The
    dashboard's avatar is whatever the storage held before the callback,
    which does not store one. *)
Theorem session_round_trip (t u : string) (b : Browser) :
  t <> "" -> u <> "" ->
  Results.mountEffect (Callback.storeSession (Some t) (Some u) b)
  = [ Results.setToken (Some t); Results.setUserName u;
      Results.setIsMounted true ]
  /\ Dashboard.mountEffect (Callback.storeSession (Some t) (Some u) b)
     = [ Dashboard.setToken (Some t); Dashboard.setUserName u;
         Dashboard.setAvatarUrl (default "" (getItem "user_avatar" b));
         Dashboard.setIsMounted true ].
Proof.
  intros Ht Hu.
  unfold Results.mountEffect, Dashboard.mountEffect.
  rewrite !storeSession_lookup by assumption.
  repeat (case_decide; [congruence |]). repeat (case_decide; try congruence).
  cbn [falsy_str]. apply String.eqb_neq in Ht as Ht', Hu as Hu'.
  rewrite Ht', Hu'. split; [reflexivity |].
  destruct (getItem "user_avatar" b); reflexivity.
Qed.

(** After a sign-out from either page the next visit is sent back to the
    start page: both handlers go to "/", and the first effect of either
    page then finds no token, falls back to the name "User" and redirects
    to "/". *)
Theorem sign_out_then_redirect (b : Browser) :
  location (Results.handleLogout b) = "/"
  /\ location (Dashboard.handleLogout b) = "/"
  /\ Results.mountEffect (Results.handleLogout b)
     = [ Results.setToken None; Results.setUserName "User";
         Results.setIsMounted true; Results.push "/" ]
  /\ Results.mountEffect (Dashboard.handleLogout b)
     = [ Results.setToken None; Results.setUserName "User";
         Results.setIsMounted true; Results.push "/" ]
  /\ Dashboard.mountEffect (Dashboard.handleLogout b)
     = [ Dashboard.setToken None; Dashboard.setUserName "User";
         Dashboard.setAvatarUrl ""; Dashboard.setIsMounted true;
         Dashboard.push "/" ]
  /\ Dashboard.mountEffect (Results.handleLogout b)
     = [ Dashboard.setToken None; Dashboard.setUserName "User";
         Dashboard.setAvatarUrl (default "" (getItem "user_avatar" b));
         Dashboard.setIsMounted true; Dashboard.push "/" ].
Proof.
  split; [reflexivity |]. split; [reflexivity |].
  unfold Results.mountEffect, Dashboard.mountEffect.
  rewrite !results_logout_removes, !dashboard_logout_clears.
  repeat split.
Qed.

(** ** More on the job launcher *)

Section LauncherRuns.

Import Dashboard.

Variable url : string.
Variable stringify : JsVal -> string.

(** Every request that [analyze] sends is well formed: it carries the
    page's token, which is a non-empty string, [auto_issue] and [auto_pr]
    set to false and the page's hosting provider, API key and model
    choice.  In the owned-repository mode it goes to [/api/analyze-repo]
    with the selected repository, which is not empty, under
    [repo_full_name]; in any other mode it goes to [/api/analyze] with the
    text of the input field exactly as typed, which is not blank, under
    [repo_url]. *)
Theorem analyze_request_well_formed (st : State) (u : string) (body : Payload) :
  In (axios_post u body) (analyze url st) ->
  (exists t, token st = Some t /\ t <> "" /\ access_token body = Some t)
  /\ auto_issue body = false /\ auto_pr body = false
  /\ hosting_provider body = hosting st
  /\ gemini_api_key body = apiKey st
  /\ model_preference body = modelPreference st
  /\ ((analysisMode st = "your-repos"
       /\ u = url +:+ "/api/analyze-repo"
       /\ repo_key body = "repo_full_name"
       /\ repo body = selectedRepo st /\ repo body <> "")
      \/ (analysisMode st <> "your-repos"
          /\ u = url +:+ "/api/analyze"
          /\ repo_key body = "repo_url"
          /\ repo body = customRepo st /\ trim (repo body) <> "")).
Proof.
  unfold analyze. destruct (falsy_str (token st)) eqn:Ht.
  { intros [H | []]. discriminate H. }
  apply falsy_str_false in Ht. destruct Ht as (t & Ht & Hne).
  destruct (String.eqb_spec (analysisMode st) "your-repos") as [Hm|Hm].
  - destruct (String.eqb_spec (selectedRepo st) "") as [Hs|Hs].
    { intros [H | []]. discriminate H. }
    unfold submit. rewrite Hm. cbn [String.eqb Ascii.eqb Bool.eqb In].
    intros [H | [H | [H | [H | []]]]]; try discriminate H.
    injection H as <- <-. cbn.
    split; [exists t; auto |]. repeat split; try reflexivity.
    left. repeat split; assumption.
  - destruct (String.eqb_spec (trim (customRepo st)) "") as [Hs|Hs].
    { intros [H | []]. discriminate H. }
    unfold submit. apply String.eqb_neq in Hm as Hm'. rewrite Hm'.
    cbn [In].
    intros [H | [H | [H | [H | []]]]]; try discriminate H.
    injection H as <- <-. cbn.
    split; [exists t; auto |]. repeat split; try reflexivity.
    right. repeat split; assumption.
Qed.

(** When a submission has been sent, the error is cleared and loading and
    the analyzing flag are set.  If it succeeds, both repository inputs are
    emptied, the job id of the answer is stored, a timer of 2000 is armed
    that ends the analyzing flag and goes to [/results?job_id=] followed
    by that job id (the text "undefined" when the answer has none), and
    loading stays set, so that the Analyze button stays disabled.  If it
    fails, the inputs and the stored job id are kept, loading and the
    analyzing flag are cleared, the button is enabled again, and a second
    click sends the same request. *)
Theorem analyze_success_and_failure (st : State)
    (body : list (string * JsVal)) (err : Api.AxiosError) :
  existsb is_network (analyze url st) = true ->
  let sent := run (analyze url st) st in
  let ok := run (analyze_settled stringify (Resolved body)) sent in
  let ko := run (analyze_settled stringify (Rejected err)) sent in
  (error sent = JStr "" /\ loading sent = true /\ isAnalyzing sent = true)
  /\ (selectedRepo ok = "" /\ customRepo ok = ""
      /\ jobId ok = assoc "job_id" body
      /\ loading ok = true /\ error ok = JStr ""
      /\ Panel.analyze_disabled ok = true
      /\ analyze_settled stringify (Resolved body)
         = [ setJobId (assoc "job_id" body); setSelectedRepo "";
             setCustomRepo "";
             setTimeout
               [ setIsAnalyzing false;
                 push ("/results?job_id=" +:+ ToString (assoc "job_id" body)) ]
               2000 ]
      /\ (assoc "job_id" body = JUndefined ->
          In (setTimeout [ setIsAnalyzing false;
                           push "/results?job_id=undefined" ] 2000)
             (analyze_settled stringify (Resolved body))))
  /\ (selectedRepo ko = selectedRepo st /\ customRepo ko = customRepo st
      /\ jobId ko = jobId st
      /\ loading ko = false /\ isAnalyzing ko = false
      /\ Panel.analyze_disabled ko = false
      /\ analyze url ko = analyze url st).
Proof.
  intros Hsent. cbn zeta.
  assert (Hs : analyze url st
               = submit url st (if String.eqb (analysisMode st) "your-repos"
                                then selectedRepo st else customRepo st)
               /\ falsy_str (token st) = false).
  { revert Hsent. unfold analyze.
    destruct (falsy_str (token st)); [discriminate |].
    destruct (String.eqb (analysisMode st) "your-repos").
    - destruct (String.eqb (selectedRepo st) ""); [discriminate | split; reflexivity].
    - destruct (String.eqb (trim (customRepo st)) ""); [discriminate | split; reflexivity]. }
  destruct Hs as [Hs Ht]. rewrite Hs.
  split; [repeat split |]. split.
  - unfold Panel.analyze_disabled. cbn.
    repeat split. intros ->. cbn. auto 10.
  - unfold Panel.analyze_disabled. cbn. rewrite Ht.
    repeat split. rewrite <- Hs. unfold analyze. cbn. reflexivity.
Qed.

End LauncherRuns.

(** ** Creating a tracking issue *)

(** [createIssue] asks for nothing but a token: with a non-empty token it
    raises its flag and posts the issue to [/api/issue], whether or not
    the page holds a result or a job id; without one its only call is the
    "Not authenticated" error.  Its continuation lowers the flag after a
    success as after a failure; a success leaves the page's state as it
    was, a failure shows the server's detail or "Failed to create issue",
    never an empty text, and changes nothing else on the page. *)
Theorem createIssue_needs_only_a_token
    (url : string) (issue : list (string * JsVal)) (st : IssueAction.State)
    (o : Results.PostOutcome) :
  (existsb IssueAction.is_network (IssueAction.createIssue url issue st) = true
   <-> falsy_str (Results.token (IssueAction.page st)) = false)
  /\ (falsy_str (Results.token (IssueAction.page st)) = true ->
      IssueAction.createIssue url issue st
      = [ IssueAction.on_page
            (Results.setError (JStr "Not authenticated. Please login first.")) ])
  /\ (falsy_str (Results.token (IssueAction.page st)) = false ->
      IssueAction.createIssue url issue st
      = [ IssueAction.setCreatingIssue true;
          IssueAction.axios_post (url +:+ "/api/issue")
            {| IssueAction.job_id := Results.job_id (IssueAction.page st);
               IssueAction.issue_title := assoc "title" issue;
               IssueAction.issue_body := IssueAction.issue_text issue;
               IssueAction.access_token :=
                 Results.token (IssueAction.page st) |} ]
      /\ IssueAction.creatingIssue
           (IssueAction.run (IssueAction.createIssue url issue st) st) = true
      /\ IssueAction.page
           (IssueAction.run (IssueAction.createIssue url issue st) st)
         = IssueAction.page st)
  /\ IssueAction.creatingIssue
       (IssueAction.run (IssueAction.createIssue_settled o) st) = false
  /\ (forall body, o = Results.PostResolved body ->
        IssueAction.page
          (IssueAction.run (IssueAction.createIssue_settled o) st)
        = IssueAction.page st)
  /\ (forall err, o = Results.PostRejected err ->
        IssueAction.page
          (IssueAction.run (IssueAction.createIssue_settled o) st)
        = Results.apply_call (IssueAction.page st)
            (Results.setError (or_else (Api.response_detail err)
                                       (JStr "Failed to create issue")))
        /\ truthy (or_else (Api.response_detail err)
                           (JStr "Failed to create issue")) = true)
  /\ (forall r b,
        IssueAction.createIssue url issue
          {| IssueAction.page :=
               Results.apply_call (IssueAction.page st) (Results.setResult r);
             IssueAction.creatingIssue := b |}
        = IssueAction.createIssue url issue st).
Proof.
  unfold IssueAction.createIssue.
  repeat match goal with |- _ /\ _ => split end.
  - destruct (falsy_str _); cbn; split; congruence.
  - intros ->. reflexivity.
  - intros ->. repeat split.
  - destruct o; reflexivity.
  - intros body ->. destruct st as [[] ?]. reflexivity.
  - intros err ->. split; [reflexivity | apply or_else_truthy; reflexivity].
  - intros r b. reflexivity.
Qed.

(** ** The repository panel of the dashboard *)

Section PanelProperties.

Import Panel.

Variable url : string.
Variable values : JsVal -> option (list JsVal).

Lemma toggle_twice_one (id0 : Z) (f : Feature) :
  toggle id0 (toggle id0 [f]) = [f].
Proof.
  destruct f as [i n e d]. unfold toggle.
  cbn [List.map id name enabled description].
  destruct (i =? id0) eqn:E; cbn [id name enabled description]; rewrite E.
  - rewrite negb_involutive. reflexivity.
  - reflexivity.
Qed.

(** Switching a feature twice restores the list of features exactly.  A
    switch keeps the number, the order, the ids, the names and the
    descriptions of the features, flips [enabled] on every feature with
    the given id and on no other, does nothing for an id that no feature
    has, and commutes with any other switch. *)
Theorem toggle_is_an_involution (id0 id1 : Z) (features : list Feature) :
  toggle id0 (toggle id0 features) = features
  /\ length (toggle id0 features) = length features
  /\ List.map id (toggle id0 features) = List.map id features
  /\ List.map name (toggle id0 features) = List.map name features
  /\ List.map description (toggle id0 features)
     = List.map description features
  /\ List.map enabled (toggle id0 features)
     = List.map (fun f => if id f =? id0 then negb (enabled f) else enabled f)
                features
  /\ (Forall (fun f => id f <> id0) features -> toggle id0 features = features)
  /\ toggle id0 (toggle id1 features) = toggle id1 (toggle id0 features).
Proof.
  unfold toggle. repeat match goal with |- _ /\ _ => split end.
  - induction features as [|f features IH]; [reflexivity |].
    cbn [List.map]. f_equal; [| exact IH].
    pose proof (toggle_twice_one id0 f) as H. unfold toggle in H.
    cbn [List.map] in H. injection H as H. exact H.
  - apply List.length_map.
  - rewrite List.map_map. apply List.map_ext. intros f.
    destruct (id f =? id0); reflexivity.
  - rewrite List.map_map. apply List.map_ext. intros f.
    destruct (id f =? id0); reflexivity.
  - rewrite List.map_map. apply List.map_ext. intros f.
    destruct (id f =? id0); reflexivity.
  - rewrite List.map_map. apply List.map_ext. intros f.
    destruct (id f =? id0); reflexivity.
  - intros H. rewrite <- (List.map_id features) at 2.
    apply List.map_ext_Forall. eapply Forall_impl; [exact H |].
    intros f Hf. cbn beta. apply Z.eqb_neq in Hf. rewrite Hf. reflexivity.
  - rewrite !List.map_map. apply List.map_ext. intros f.
    destruct f as [i n e d]. cbn [id name enabled description].
    destruct (i =? id0) eqn:E0, (i =? id1) eqn:E1;
      cbn [id name enabled description]; rewrite ?E0, ?E1; reflexivity.
Qed.


(** [fetchProviders] never shows an error and always leaves an array in
    [providers]: an array answer is stored as it is, any other answer is
    replaced by its [Object.values], and a failed request, like an answer
    on which [Object.values] throws, gives the empty array.  It touches no
    other cell, and the page's second effect starts it, together with the
    loading of the repository list, only when the page is mounted and has
    a token. *)
Theorem providers_are_always_an_array (st : State) (o : Outcome) :
  (exists elems,
     fetchProviders_settled values o = [ setProviders (JArray elems) ]
     /\ providers (run (fetchProviders_settled values o) st) = JArray elems
     /\ (forall l, o = Resolved (JArray l) -> elems = l)
     /\ (forall data vs, o = Resolved data -> (forall l, data <> JArray l) ->
           values data = Some vs -> elems = vs)
     /\ (forall err, o = Rejected err -> elems = [])
     /\ (forall data, o = Resolved data -> values data = None ->
           (forall l, data <> JArray l) -> elems = []))
  /\ existsb is_setError (fetchProviders_settled values o) = false
  /\ page (run (fetchProviders_settled values o) st) = page st
  /\ (falsy_str (Dashboard.token (page st)) = true
      \/ Dashboard.isMounted (page st) = false ->
      loadEffect url st = [])
  /\ (falsy_str (Dashboard.token (page st)) = false ->
      Dashboard.isMounted (page st) = true ->
      loadEffect url st
      = [ axios_get (url +:+ "/api/hosting/providers") [];
          setReposLoading true;
          axios_get (url +:+ "/api/user/repos")
                    [ ("access_token", Dashboard.token (page st)) ] ]).
Proof.
  repeat match goal with |- _ /\ _ => split end.
  - destruct o as [data|err].
    + destruct data as [| |b|z|s|l|l]; cbn [fetchProviders_settled];
        try (match goal with
             | |- context [values ?d] => destruct (values d) as [vs|] eqn:Hv
             end);
        eexists; (split; [reflexivity |]); (split; [reflexivity |]);
        repeat split; intros; simplify_eq; try reflexivity; try congruence;
        match goal with
        | H : forall l0, JArray ?l <> JArray l0 |- _ => destruct (H l eq_refl)
        end.
    + exists []. split; [reflexivity |]. split; [reflexivity |].
      repeat split; intros; simplify_eq; reflexivity.
  - destruct o as [[]|]; cbn [fetchProviders_settled];
      try destruct (values _); reflexivity.
  - destruct o as [[]|]; cbn [fetchProviders_settled];
      try destruct (values _); reflexivity.
  - unfold loadEffect. intros [-> | ->]; [reflexivity |].
    rewrite orb_true_r. reflexivity.
  - unfold loadEffect, fetchProviders, fetchUserRepos. intros -> ->. reflexivity.
Qed.

(** A search is sent whatever the page holds: also without a token and
    with an empty search text.  It first empties the result list and
    raises [isSearching], and its continuation lowers [isSearching]
    whatever the outcome.  A failure writes "Search failed" into the error
    cell and leaves the list as it is; as the markup does not read that
    cell, the page then displays what it would display had only
    [isSearching] been lowered.  A success stores the answer's [repos].
    Clicking a result writes its name into the input field and empties
    the list. *)
Theorem search_is_never_refused (st : State) (o : Outcome) (full_name : string) :
  search url st
  = [ setSearchResults (JArray []); setIsSearching true;
      axios_get (url +:+ "/api/github/search")
                [ ("q", Some (Dashboard.customRepo (page st)));
                  ("access_token", Dashboard.token (page st)) ] ]
  /\ searchResults (run (search url st) st) = JArray []
  /\ isSearching (run (search url st) st) = true
  /\ isSearching (run (search_settled o) st) = false
  /\ (existsb is_setError (search_settled o) = true ->
      searchResults (run (search_settled o) st) = searchResults st
      /\ Dashboard.error (page (run (search_settled o) st))
         = JStr "Search failed"
      /\ DashboardView.markup_reads (run (search_settled o) st)
         = DashboardView.markup_reads (run [ setIsSearching false ] st))
  /\ (existsb is_setError (search_settled o) = false ->
      exists data, o = Resolved data
        /\ searchResults (run (search_settled o) st) = opt_get data "repos")
  /\ Dashboard.customRepo (page (run (selectSearchResult full_name) st))
     = full_name
  /\ searchResults (run (selectSearchResult full_name) st) = JArray [].
Proof.
  repeat match goal with |- _ /\ _ => split end; try reflexivity.
  - destruct o as [[]|]; reflexivity.
  - destruct o as [[]|]; cbn; intros H; try discriminate H; repeat split.
  - destruct o as [[]|]; cbn; intros H; try discriminate H;
      eexists; split; reflexivity.
Qed.

(** A clicked search result is what gets analyzed: with a token, in the
    public mode and for a name that is not blank, [analyze] after the
    click posts that name, and nothing else, as [repo_url] to
    [/api/analyze]. *)
Theorem selected_result_is_analyzed (st : State) (full_name : string) :
  falsy_str (Dashboard.token (page st)) = false ->
  Dashboard.analysisMode (page st) <> "your-repos" ->
  trim full_name <> "" ->
  List.filter is_network
    (analyze url (run (selectSearchResult full_name) st))
  = [ on_page
        (Dashboard.axios_post (url +:+ "/api/analyze")
           {| Dashboard.repo_key := "repo_url";
              Dashboard.repo := full_name;
              Dashboard.access_token := Dashboard.token (page st);
              Dashboard.auto_issue := false;
              Dashboard.auto_pr := false;
              Dashboard.hosting_provider := Dashboard.hosting (page st);
              Dashboard.gemini_api_key := Dashboard.apiKey (page st);
              Dashboard.model_preference :=
                Dashboard.modelPreference (page st) |}) ].
Proof.
  intros Ht Hm Hn. unfold analyze, Dashboard.analyze.
  cbn [run selectSearchResult fold_left apply_call page Dashboard.apply_call
       Dashboard.token Dashboard.analysisMode Dashboard.customRepo].
  rewrite Ht. apply String.eqb_neq in Hm, Hn. rewrite Hm, Hn.
  unfold Dashboard.submit.
  cbn [Dashboard.analysisMode Dashboard.token Dashboard.hosting
       Dashboard.apiKey Dashboard.modelPreference].
  rewrite Hm. reflexivity.
Qed.

End PanelProperties.

(** ** The properties above at sample inputs *)

Lemma results_refused_reaches_later :
  ResultsView.reaches Samples.API_URL Cases.results_refused Cases.results_later.
Proof.
  eapply ResultsView.reaches_next.
  - apply (ResultsView.handles_settled _ _ true
             (Results.Resolved Samples.payload_done)).
  - apply ResultsView.reaches_here.
Defined.

(** A refused enhancement pull request on the finished report, followed
    by a tick that delivers the report once more. *)
Lemma error_is_never_cleared_witness :
  ResultsView.reaches Samples.API_URL Cases.results_refused Cases.results_later
  /\ truthy (Results.error Cases.results_refused) = true
  /\ truthy (Results.error Cases.results_later) = true.
Proof.
  split; [exact results_refused_reaches_later |].
  split; [reflexivity |].
  exact (error_is_never_cleared Samples.API_URL Cases.results_refused
           Cases.results_later results_refused_reaches_later eq_refl).
Defined.



Lemma session_round_trip_witness :
  "gho_abc" <> "" /\ "octocat" <> ""
  /\ Dashboard.mountEffect
       (Callback.storeSession (Some "gho_abc") (Some "octocat")
          Samples.signed_in)
     = [ Dashboard.setToken (Some "gho_abc"); Dashboard.setUserName "octocat";
         Dashboard.setAvatarUrl
           (default "" (getItem "user_avatar" Samples.signed_in));
         Dashboard.setIsMounted true ].
Proof.
  assert (H1 : "gho_abc" <> "") by discriminate.
  assert (H2 : "octocat" <> "") by discriminate.
  split; [exact H1 |]. split; [exact H2 |].
  exact (proj2 (session_round_trip "gho_abc" "octocat" Samples.signed_in H1 H2)).
Defined.

Lemma analyze_request_well_formed_witness :
  exists u body,
    In (Dashboard.axios_post u body)
       (Dashboard.analyze Samples.API_URL Cases.dashboard_typed)
    /\ Dashboard.auto_issue body = false
    /\ Dashboard.auto_pr body = false.
Proof.
  eexists. eexists.
  assert (Hin : In (Dashboard.axios_post
                      (Samples.API_URL +:+ "/api/analyze")
                      {| Dashboard.repo_key := "repo_url";
                         Dashboard.repo := " octocat/hello ";
                         Dashboard.access_token := Some "gho_abc";
                         Dashboard.auto_issue := false;
                         Dashboard.auto_pr := false;
                         Dashboard.hosting_provider := JNull;
                         Dashboard.gemini_api_key := "";
                         Dashboard.model_preference := "gemini-2.5-flash" |})
                   (Dashboard.analyze Samples.API_URL Cases.dashboard_typed)).
  { vm_compute. auto 10. }
  split; [exact Hin |].
  destruct (analyze_request_well_formed Samples.API_URL Cases.dashboard_typed
              _ _ Hin) as (_ & Hi & Hp & _).
  split; [exact Hi | exact Hp].
Defined.

Lemma analyze_success_and_failure_witness :
  existsb Dashboard.is_network
    (Dashboard.analyze Samples.API_URL Cases.dashboard_typed) = true
  /\ Dashboard.loading
       (Dashboard.run
          (Dashboard.analyze_settled (fun _ => "{}")
             (Dashboard.Rejected Samples.server_error))
          (Dashboard.run
             (Dashboard.analyze Samples.API_URL Cases.dashboard_typed)
             Cases.dashboard_typed))
     = false.
Proof.
  assert (H : existsb Dashboard.is_network
                (Dashboard.analyze Samples.API_URL Cases.dashboard_typed) = true)
    by (vm_compute; reflexivity).
  split; [exact H |].
  destruct (analyze_success_and_failure Samples.API_URL (fun _ => "{}")
              Cases.dashboard_typed [] Samples.server_error H)
    as (_ & _ & (_ & _ & _ & Hl & _)).
  exact Hl.
Defined.

Lemma selected_result_is_analyzed_witness :
  falsy_str (Dashboard.token (Panel.page Cases.panel_blank)) = false
  /\ Dashboard.analysisMode (Panel.page Cases.panel_blank) <> "your-repos"
  /\ trim "octocat/hello" <> ""
  /\ length (List.filter Panel.is_network
               (Panel.analyze Samples.API_URL
                  (Panel.run (Panel.selectSearchResult "octocat/hello")
                             Cases.panel_blank)))
     = 1%nat.
Proof.
  assert (H1 : falsy_str (Dashboard.token (Panel.page Cases.panel_blank)) = false)
    by reflexivity.
  assert (H2 : Dashboard.analysisMode (Panel.page Cases.panel_blank)
               <> "your-repos") by (simpl; discriminate).
  assert (H3 : trim "octocat/hello" <> "") by (vm_compute; discriminate).
  split; [exact H1 |]. split; [exact H2 |]. split; [exact H3 |].
  rewrite (selected_result_is_analyzed Samples.API_URL Cases.panel_blank
             "octocat/hello" H1 H2 H3).
  reflexivity.
Defined.

(** ** The stages of the progress screen *)

(** While a job keeps answering running, from the page's initial progress
    0, the progress screen lights its first stage from the third tick on,
    its second from the sixth and its third from the eighth; the fourth
    stage, Deployment, is never lit, however long the job runs. *)
Theorem fourth_stage_is_never_lit
    (url : string) (st : Results.State) (outs : list Results.Outcome)
    (n : nat) :
  Forall Observe.running outs ->
  Results.analysisProgress st = 0 ->
  (n <= length (Results.pollingEffect url st outs))%nat ->
  let p := Observe.progress_after (Results.pollingEffect url st outs) n st in
  ResultsView.stage_lit p 3 = false
  /\ (ResultsView.stage_lit p 0 = true <-> (3 <= n)%nat)
  /\ (ResultsView.stage_lit p 1 = true <-> (6 <= n)%nat)
  /\ (ResultsView.stage_lit p 2 = true <-> (8 <= n)%nat).
Proof.
  intros Hrun H0 Hn. cbn zeta.
  rewrite (progress_after_bumps _
             (pollingEffect_running_ticks url st outs Hrun) n st Hn)
    by (rewrite H0; lia).
  rewrite H0. unfold ResultsView.stage_lit.
  repeat split; try (apply Z.ltb_ge; lia);
    rewrite ?Z.ltb_lt; lia.
Qed.

Lemma fourth_stage_is_never_lit_witness :
  Forall Observe.running Samples.ten_running
  /\ Results.analysisProgress Samples.results_mounted = 0
  /\ (10 <= length (Results.pollingEffect Samples.API_URL
                      Samples.results_mounted Samples.ten_running))%nat
  /\ ResultsView.stage_lit
       (Observe.progress_after
          (Results.pollingEffect Samples.API_URL Samples.results_mounted
             Samples.ten_running)
          10 Samples.results_mounted)
       3
     = false.
Proof.
  assert (H1 : Forall Observe.running Samples.ten_running).
  { unfold Samples.ten_running. simpl.
    repeat (constructor;
            [exists Samples.payload_running; split; reflexivity |]).
    constructor. }
  assert (H3 : (10 <= length (Results.pollingEffect Samples.API_URL
                    Samples.results_mounted Samples.ten_running))%nat).
  { simpl. lia. }
  split; [exact H1 |]. split; [reflexivity |]. split; [exact H3 |].
  exact (proj1 (fourth_stage_is_never_lit Samples.API_URL
                  Samples.results_mounted Samples.ten_running 10
                  H1 eq_refl H3)).
Defined.

(** ** The derived statistics on the heap *)

Section HeapFacts.

Import Heap.

Lemma keeps_ret {A} (x : A) : keeps (ret x).
Proof. intros h. reflexivity. Qed.

Lemma keeps_throw {A} : keeps (@throw A).
Proof. intros h. reflexivity. Qed.

Lemma keeps_bind {A B} (m : M A) (f : A -> M B) :
  keeps m -> (forall x, keeps (f x)) -> keeps (bind m f).
Proof.
  intros Hm Hf h. unfold bind. specialize (Hm h).
  destruct (m h) as [h1 [x|]]; simpl in *; [| exact Hm].
  etrans; [exact Hm | apply Hf].
Qed.

Lemma keeps_get v k : keeps (get v k).
Proof. intros h. unfold get. destruct (nullish v); reflexivity. Qed.

Lemma fresh_unused (h : gmap loc Obj) : h !! fresh (dom h) = None.
Proof. apply not_elem_of_dom, is_fresh. Qed.

Lemma keeps_alloc o : keeps (alloc o).
Proof. intros h. unfold alloc. simpl. apply insert_subseteq, fresh_unused. Qed.

Lemma keeps_filter_elems callback elems :
  (forall e, keeps (callback e)) -> keeps (filter_elems callback elems).
Proof.
  intros Hc. induction elems as [|e rest IH]; simpl.
  - apply keeps_ret.
  - apply keeps_bind; [apply Hc |]. intros keep.
    apply keeps_bind; [exact IH |]. intros kept. apply keeps_ret.
Qed.

Lemma keeps_filter arr callback :
  (forall e, keeps (callback e)) -> keeps (filter arr callback).
Proof.
  intros Hc h. unfold filter.
  destruct arr as [| | | | |l]; try reflexivity.
  destruct (h !! l) as [[elems|props]|]; try reflexivity.
  apply (keeps_bind (filter_elems callback elems)
                    (fun kept => alloc (OArray kept))).
  - apply keeps_filter_elems, Hc.
  - intros kept. apply keeps_alloc.
Qed.

Lemma keeps_default_array v : keeps (default_array v).
Proof. destruct v; try apply keeps_ret. apply keeps_alloc. Qed.

Lemma keeps_count arr field lit : keeps (count arr field lit).
Proof.
  unfold count. apply keeps_bind.
  - apply keeps_filter. intros e. apply keeps_bind; [apply keeps_get |].
    intros v. apply keeps_ret.
  - intros kept. apply keeps_get.
Qed.

(** [calculateStats] changes no object of the heap, the result and its
    arrays included, whatever the result is and also when it throws. *)
Lemma calculateStats_keeps result : keeps (calculateStats result).
Proof.
  unfold calculateStats. destruct (negb (truthy result)); [apply keeps_ret |].
  repeat first
    [ apply keeps_ret
    | apply keeps_get
    | apply keeps_count
    | apply keeps_default_array
    | match goal with
      | |- keeps (if ?c then _ else _) => destruct c
      | |- keeps (bind _ _) => apply keeps_bind; [| intros ?]
      end ].
Qed.

Lemma returns_ret {A} (x : A) h (Q : gmap loc Obj -> A -> Prop) :
  Q h x -> returns (ret x) h Q.
Proof. intros H. exists h, x. repeat split; [reflexivity | exact H]. Qed.

Lemma returns_bind {A B} (m : M A) (f : A -> M B) h
    (Q : gmap loc Obj -> B -> Prop) :
  returns m h (fun h1 x => returns (f x) h1 Q) -> returns (bind m f) h Q.
Proof.
  intros (h1 & x & Hm & Hsub & (h2 & y & Hf & Hsub' & HQ)).
  exists h2, y. unfold bind. rewrite Hm. repeat split; try assumption.
  etrans; eassumption.
Qed.

Lemma returns_get v k h (Q : gmap loc Obj -> Val -> Prop) :
  nullish v = false -> Q h (read h v k) -> returns (get v k) h Q.
Proof.
  intros Hv H. exists h, (read h v k). unfold get. rewrite Hv.
  repeat split; [reflexivity | exact H].
Qed.

Lemma read_weaken (h h' : gmap loc Obj) e k :
  h ⊆ h' -> (forall l, e = VRef l -> is_Some (h !! l)) ->
  read h' e k = read h e k.
Proof.
  intros Hsub Hc. destruct e as [| | | | |l]; try reflexivity.
  destruct (Hc l eq_refl) as [o Ho]. unfold read.
  rewrite Ho, (lookup_weaken _ _ _ _ Ho Hsub). reflexivity.
Qed.

Lemma element_ok_weaken (h h' : gmap loc Obj) e :
  h ⊆ h' -> element_ok h e -> element_ok h' e.
Proof.
  intros Hsub [Hn Hc]. split; [exact Hn |].
  intros l Hl. destruct (Hc l Hl) as [o Ho]. exists o.
  eapply lookup_weaken; eassumption.
Qed.

Lemma returns_filter_elems (h0 h : gmap loc Obj) field lit elems :
  h0 ⊆ h -> Forall (element_ok h0) elems ->
  filter_elems (fun x => let! v := get x field in ret (strict_eq_str v lit))
               elems h
  = (h, Some (List.filter (fun e => strict_eq_str (read h0 e field) lit) elems)).
Proof.
  intros Hsub Hok. induction Hok as [|e rest [Hn Hc] _ IH]; [reflexivity |].
  cbn [filter_elems List.filter]. unfold bind at 1. unfold bind at 1.
  unfold get at 1. rewrite Hn. unfold ret at 1.
  unfold bind at 1. rewrite IH. unfold ret.
  rewrite (read_weaken h0 h e field Hsub Hc). reflexivity.
Qed.

(** The count over an array of the heap whose elements can be read. *)
Lemma returns_count (h0 h : gmap loc Obj) la elems field lit
    (Q : gmap loc Obj -> Val -> Prop) :
  h0 ⊆ h -> h !! la = Some (OArray elems) -> Forall (element_ok h0) elems ->
  (forall h', h ⊆ h' ->
     Q h' (VNum (Z.of_nat
                   (length (List.filter
                              (fun e => strict_eq_str (read h0 e field) lit)
                              elems))))) ->
  returns (count (VRef la) field lit) h Q.
Proof.
  intros Hsub Hla Hok HQ. unfold count, returns.
  unfold bind at 1. unfold filter. rewrite Hla. unfold bind at 1.
  rewrite (returns_filter_elems h0 h field lit elems Hsub Hok).
  unfold alloc, get. cbn [nullish read].
  rewrite lookup_insert_eq. cbn [String.eqb Ascii.eqb Bool.eqb].
  eexists. eexists. split; [reflexivity |].
  assert (Hext : h ⊆ <[fresh (dom h) := OArray
            (List.filter (fun e => strict_eq_str (read h0 e field) lit) elems)]> h)
    by apply insert_subseteq, fresh_unused.
  split; [exact Hext | apply HQ, Hext].
Qed.

(** The destructuring default: an absent field becomes a new empty array,
    a present one is taken as it is. *)
Lemma returns_default_array (h0 h : gmap loc Obj) v
    (Q : gmap loc Obj -> Val -> Prop) :
  h0 ⊆ h -> field_ok h0 v ->
  (forall h' la elems, h ⊆ h' -> h' !! la = Some (OArray elems) ->
     Forall (element_ok h0) elems ->
     (v = VUndefined -> elems = []) ->
     (forall lb elems0, v = VRef lb -> h0 !! lb = Some (OArray elems0) ->
        elems = elems0) ->
     Q h' (VRef la)) ->
  returns (default_array v) h Q.
Proof.
  intros Hsub [-> | (la & elems & -> & Hla & Hok)] HQ.
  - cbn [default_array]. unfold returns, alloc.
    eexists. eexists. split; [reflexivity |].
    assert (Hext : h ⊆ <[fresh (dom h) := OArray []]> h)
      by apply insert_subseteq, fresh_unused.
    split; [exact Hext |].
    apply (HQ _ (fresh (dom h)) []); try assumption.
    + apply lookup_insert_eq.
    + constructor.
    + reflexivity.
    + intros lb elems0 H. discriminate H.
  - cbn [default_array]. apply returns_ret.
    apply (HQ h la elems); try assumption.
    + reflexivity.
    + eapply lookup_weaken; eassumption.
    + intros H. discriminate H.
    + intros lb elems0 [= <-] H0. congruence.
Qed.

Lemma counts_of_filter (h : gmap loc Obj) v field lit elems :
  (v = VUndefined -> elems = []) ->
  (forall lb elems0, v = VRef lb -> h !! lb = Some (OArray elems0) ->
     elems = elems0) ->
  counts_of h v field lit
    (VNum (Z.of_nat
             (length (List.filter
                        (fun e => strict_eq_str (read h e field) lit) elems)))).
Proof.
  intros Hu Hp. split.
  - intros H. rewrite (Hu H). reflexivity.
  - intros lb elems0 Hv Hl. rewrite (Hp lb elems0 Hv Hl).
    eexists. split; [| reflexivity].
    apply filter_length_Count. intros e. unfold strict_eq_str.
    destruct (read h e field); try (split; [discriminate | intros [=]]).
    rewrite String.eqb_eq. split; [intros -> | intros [= ->]]; reflexivity.
Qed.

Lemma total_of_length (h : gmap loc Obj) v elems :
  (v = VUndefined -> elems = []) ->
  (forall lb elems0, v = VRef lb -> h !! lb = Some (OArray elems0) ->
     elems = elems0) ->
  total_of h v (VNum (Z.of_nat (length elems))).
Proof.
  intros Hu Hp. split.
  - intros H. rewrite (Hu H). reflexivity.
  - intros lb elems0 Hv Hl. rewrite (Hp lb elems0 Hv Hl). reflexivity.
Qed.

Lemma read_length (h : gmap loc Obj) la elems :
  h !! la = Some (OArray elems) ->
  read h (VRef la) "length" = VNum (Z.of_nat (length elems)).
Proof. intros H. unfold read. rewrite H. reflexivity. Qed.

(** Carry what is known about a heap over to a heap that extends it. *)
Ltac advance Hsub :=
  match type of Hsub with
  | ?hc ⊆ ?hn =>
      repeat match goal with
      | H : hc !! ?l = Some ?o |- _ =>
          lazymatch goal with
          | _ : hn !! l = Some o |- _ => fail
          | _ => pose proof (lookup_weaken hc hn l o H Hsub)
          end
      | H : ?h0 ⊆ hc |- _ =>
          lazymatch goal with
          | _ : h0 ⊆ hn |- _ => fail
          | _ => assert (h0 ⊆ hn) by (etrans; [exact H | exact Hsub])
          end
      end
  end.

Ltac step_get lr :=
  apply returns_bind, returns_get; [reflexivity |];
  match goal with
  | H : ?hc !! lr = Some (OObject _) |- returns _ ?hc _ =>
      unfold read at 1; rewrite H
  end.

Ltac step_default h0 Hok :=
  apply returns_bind;
  match goal with
  | |- returns _ ?hc _ =>
      apply (returns_default_array h0 hc); [assumption | exact Hok |]
  end.

Ltac step_count h0 la :=
  apply returns_bind;
  match goal with
  | Hl : ?hc !! la = Some (OArray ?elems) |- returns _ ?hc _ =>
      apply (returns_count h0 hc la elems); [assumption | exact Hl | assumption |]
  end;
  let hn := fresh "h" in let Hsub := fresh "Hsub" in
  intros hn Hsub; advance Hsub.

(** C5 (on results whose arrays are arrays). For a result object whose
    [issues], [enhancements] and [file_suggestions] are each absent or an
    array without null or undefined elements, [calculateStats] returns a
    statistics record and throws nothing; it changes no object that
    existed before, so that the result, its arrays and their elements are
    as they were; an absent array counts as empty, with 0 for each of its
    categories and for its total; each count over a present array is the
    number of its elements whose categorical field is the category's
    string; and three issues of severities high, high, low give high = 2,
    medium = 0, low = 1. *)
Theorem C5_calculateStats_on_arrays
    (h : gmap loc Obj) (lr : loc) (props : list (string * Val)) :
  h !! lr = Some (OObject props) ->
  field_ok h (assoc "issues" props) ->
  field_ok h (assoc "enhancements" props) ->
  field_ok h (assoc "file_suggestions" props) ->
  exists h' s,
    calculateStats (VRef lr) h = (h', Some (Some s))
    /\ (forall l o, h !! l = Some o -> h' !! l = Some o)
    /\ counts_of h (assoc "issues" props) "severity" "high" (highSeverity s)
    /\ counts_of h (assoc "issues" props) "severity" "medium"
                 (mediumSeverity s)
    /\ counts_of h (assoc "issues" props) "severity" "low" (lowSeverity s)
    /\ counts_of h (assoc "enhancements" props) "type" "performance"
                 (performanceEnhancements s)
    /\ counts_of h (assoc "enhancements" props) "type" "security"
                 (securityEnhancements s)
    /\ counts_of h (assoc "enhancements" props) "type" "maintainability"
                 (maintainabilityEnhancements s)
    /\ counts_of h (assoc "file_suggestions" props) "priority" "high"
                 (highPriorityFiles s)
    /\ counts_of h (assoc "file_suggestions" props) "priority" "medium"
                 (mediumPriorityFiles s)
    /\ counts_of h (assoc "file_suggestions" props) "priority" "low"
                 (lowPriorityFiles s)
    /\ total_of h (assoc "issues" props) (totalIssues s)
    /\ total_of h (assoc "enhancements" props) (totalEnhancements s)
    /\ (forall la e1 e2 e3,
          assoc "issues" props = VRef la ->
          h !! la = Some (OArray [e1; e2; e3]) ->
          read h e1 "severity" = VStr "high" ->
          read h e2 "severity" = VStr "high" ->
          read h e3 "severity" = VStr "low" ->
          highSeverity s = VNum 2 /\ mediumSeverity s = VNum 0
          /\ lowSeverity s = VNum 1).
Proof.
  intros Hlr Hi He Hf.
  assert (Hrefl : h ⊆ h) by reflexivity.
  assert (Hret :
    returns (calculateStats (VRef lr)) h
      (fun _ r => exists s, r = Some s
         /\ counts_of h (assoc "issues" props) "severity" "high" (highSeverity s)
         /\ counts_of h (assoc "issues" props) "severity" "medium"
                      (mediumSeverity s)
         /\ counts_of h (assoc "issues" props) "severity" "low" (lowSeverity s)
         /\ counts_of h (assoc "enhancements" props) "type" "performance"
                      (performanceEnhancements s)
         /\ counts_of h (assoc "enhancements" props) "type" "security"
                      (securityEnhancements s)
         /\ counts_of h (assoc "enhancements" props) "type" "maintainability"
                      (maintainabilityEnhancements s)
         /\ counts_of h (assoc "file_suggestions" props) "priority" "high"
                      (highPriorityFiles s)
         /\ counts_of h (assoc "file_suggestions" props) "priority" "medium"
                      (mediumPriorityFiles s)
         /\ counts_of h (assoc "file_suggestions" props) "priority" "low"
                      (lowPriorityFiles s)
         /\ total_of h (assoc "issues" props) (totalIssues s)
         /\ total_of h (assoc "enhancements" props) (totalEnhancements s)
         /\ (forall elems0 lb, assoc "issues" props = VRef lb ->
               h !! lb = Some (OArray elems0) ->
               highSeverity s
               = VNum (Z.of_nat (length (List.filter
                    (fun e => strict_eq_str (read h e "severity") "high")
                    elems0)))
               /\ mediumSeverity s
                  = VNum (Z.of_nat (length (List.filter
                       (fun e => strict_eq_str (read h e "severity") "medium")
                       elems0)))
               /\ lowSeverity s
                  = VNum (Z.of_nat (length (List.filter
                       (fun e => strict_eq_str (read h e "severity") "low")
                       elems0)))))).
  { unfold calculateStats. cbn [truthy negb].
    step_get lr. step_default h Hi.
    intros h1 la1 el1 Hs1 Hl1 Hok1 Hu1 Hp1. advance Hs1.
    step_get lr. step_default h He.
    intros h2 la2 el2 Hs2 Hl2 Hok2 Hu2 Hp2. advance Hs2.
    step_get lr. step_default h Hf.
    intros h3 la3 el3 Hs3 Hl3 Hok3 Hu3 Hp3. advance Hs3.
    step_count h la1. step_count h la1. step_count h la1.
    step_count h la2. step_count h la2. step_count h la2.
    step_count h la3. step_count h la3. step_count h la3.
    apply returns_bind, returns_get; [reflexivity |].
    apply returns_bind.
    match goal with
    | |- returns (if ?c then _ else _) _ _ =>
        destruct c eqn:Hnull;
          [apply returns_ret | apply returns_get; [exact Hnull |]]
    end;
    (apply returns_bind, returns_get; [reflexivity |];
     apply returns_bind, returns_get; [reflexivity |];
     apply returns_bind, returns_get; [reflexivity |];
     apply returns_ret;
     match goal with
     | H1 : ?hc !! la1 = Some (OArray el1),
       H2 : ?hc !! la2 = Some (OArray el2)
       |- context [read ?hc (VRef la1) "length"] =>
         rewrite (read_length hc la1 el1 H1), (read_length hc la2 el2 H2)
     end;
     eexists; split; [reflexivity |];
     cbn [highSeverity mediumSeverity lowSeverity performanceEnhancements
          securityEnhancements maintainabilityEnhancements highPriorityFiles
          mediumPriorityFiles lowPriorityFiles totalIssues totalEnhancements];
     repeat match goal with |- _ /\ _ => split end;
     try (apply counts_of_filter; assumption);
     try (apply total_of_length; assumption);
     intros elems0 lb Hv Hl0; rewrite (Hp1 lb elems0 Hv Hl0);
     repeat split). }
  destruct Hret as (h' & r & Heq & Hsub & (s & -> & H1 & H2 & H3 & H4 & H5
                     & H6 & H7 & H8 & H9 & H10 & H11 & Hex)).
  exists h', s. split; [exact Heq |].
  split; [intros l o Hl; eapply lookup_weaken; eassumption |].
  repeat (split; [assumption |]).
  intros la e1 e2 e3 Hv Hl Hs1 Hs2 Hs3.
  destruct (Hex _ _ Hv Hl) as (-> & -> & ->).
  cbn [List.filter]. rewrite Hs1, Hs2, Hs3. repeat split.
Qed.

End HeapFacts.

(** C5 (as stated) fails: for the result object whose [issues] is null,
    [calculateStats] throws, at [issues.filter]. *)
Lemma C5_null_issues_throws :
  Heap.heap_null_issues !! 1%positive
  = Some (Heap.OObject [ ("status", Heap.VStr "done");
                         ("issues", Heap.VNull) ])
  /\ (Heap.calculateStats (Heap.VRef 1%positive) Heap.heap_null_issues).2 = None.
Proof. split; vm_compute; reflexivity. Qed.

(** C5 (on results whose arrays are arrays), on a result with three issues
    of severities high, high, low and no [enhancements] key. *)
Lemma C5_calculateStats_on_arrays_witness :
  Heap.field_ok Heap.heap_three_issues (Heap.VRef 2%positive)
  /\ Heap.field_ok Heap.heap_three_issues Heap.VUndefined
  /\ Heap.field_ok Heap.heap_three_issues (Heap.VRef 6%positive)
  /\ exists h' s,
       Heap.calculateStats (Heap.VRef 1%positive) Heap.heap_three_issues
       = (h', Some (Some s))
       /\ Heap.highSeverity s = Heap.VNum 2
       /\ Heap.mediumSeverity s = Heap.VNum 0
       /\ Heap.lowSeverity s = Heap.VNum 1.
Proof.
  assert (Hi : Heap.field_ok Heap.heap_three_issues (Heap.VRef 2%positive)).
  { right. exists 2%positive,
      [Heap.VRef 3%positive; Heap.VRef 4%positive; Heap.VRef 5%positive].
    split; [reflexivity |]. split; [vm_compute; reflexivity |].
    repeat constructor; intros l [= <-]; eexists; vm_compute; reflexivity. }
  assert (He : Heap.field_ok Heap.heap_three_issues Heap.VUndefined)
    by (left; reflexivity).
  assert (Hf : Heap.field_ok Heap.heap_three_issues (Heap.VRef 6%positive)).
  { right. exists 6%positive, []. split; [reflexivity |].
    split; [vm_compute; reflexivity | constructor]. }
  split; [exact Hi |]. split; [exact He |]. split; [exact Hf |].
  destruct (C5_calculateStats_on_arrays Heap.heap_three_issues 1%positive
              [ ("status", Heap.VStr "done"); ("issues", Heap.VRef 2%positive);
                ("file_suggestions", Heap.VRef 6%positive); ("files", Heap.VRef 6%positive);
                ("total_lines", Heap.VNum 120) ]
              ltac:(vm_compute; reflexivity) Hi He Hf)
    as (h' & s & Heq & _ & _ & _ & _ & _ & _ & _ & _ & _ & _ & _ & _ & Hex).
  exists h', s. split; [exact Heq |].
  apply (Hex 2%positive (Heap.VRef 3%positive) (Heap.VRef 4%positive) (Heap.VRef 5%positive));
    vm_compute; reflexivity.
Defined.

(** ** The error cell of the dashboard is not displayed *)

Lemma error_is_not_read (st : Panel.State) (v : JsVal) :
  DashboardView.markup_reads
    (Panel.apply_call st (Panel.on_page (Dashboard.setError v)))
  = DashboardView.markup_reads st.
Proof. reflexivity. Qed.

(** Whenever [analyze] refuses a submission, the page displays after it
    exactly what it displayed before. *)
Lemma refused_analyze_displays_nothing (url : string) (st : Panel.State) :
  existsb Panel.is_network (Panel.analyze url st) = false ->
  DashboardView.markup_reads (Panel.run (Panel.analyze url st) st)
  = DashboardView.markup_reads st.
Proof.
  unfold Panel.analyze, Dashboard.analyze.
  destruct (falsy_str _); [reflexivity |].
  destruct (String.eqb (Dashboard.analysisMode _) _).
  - destruct (String.eqb _ ""); [reflexivity | discriminate].
  - destruct (String.eqb _ ""); [reflexivity | discriminate].
Qed.

(** C6 (the error is set but not displayed). A signed-in user in the
    owned-repository mode who has selected nothing clicks Analyze: the
    submission is refused without a request and "Please select a
    repository" is written into the error cell, but the markup of the
    dashboard does not read that cell, so the page displays exactly what
    it displayed before the click and no message is visible. *)
Theorem C6_refusal_is_not_displayed :
  let st := MoreCases.panel_signed_in in
  let refused := Panel.run (Panel.analyze Samples.API_URL st) st in
  Dashboard.analysisMode (Panel.page st) = "your-repos"
  /\ Dashboard.selectedRepo (Panel.page st) = ""
  /\ Panel.analyze Samples.API_URL st
     = [ Panel.on_page
           (Dashboard.setError (JStr "Please select a repository")) ]
  /\ existsb Panel.is_network (Panel.analyze Samples.API_URL st) = false
  /\ Dashboard.error (Panel.page refused) = JStr "Please select a repository"
  /\ DashboardView.markup_reads refused = DashboardView.markup_reads st.
Proof. cbn zeta. repeat split. Qed.

(** C7 (the message is chosen but not displayed). A submission that was
    sent fails with HTTP 429: the rate-limit message is written into the
    error cell, but the markup of the dashboard does not read that cell,
    so the page displays exactly what it would display had only the
    analyzing and loading flags been cleared; neither the rate-limit
    message nor any other is visible. *)
Theorem C7_rate_limit_message_is_not_displayed :
  let sent := MoreCases.panel_sent in
  let failed :=
    Panel.run (DashboardView.analyze_settled (fun _ => "{}")
                 (Dashboard.Rejected Samples.too_many_requests))
              sent in
  existsb Panel.is_network
    (Panel.analyze Samples.API_URL MoreCases.panel_typed) = true
  /\ Dashboard.error (Panel.page failed) = JStr Dashboard.rate_limit_message
  /\ DashboardView.markup_reads failed
     = DashboardView.markup_reads
         (Panel.run [ Panel.on_page (Dashboard.setIsAnalyzing false);
                      Panel.on_page (Dashboard.setLoading false) ]
                    sent).
Proof. cbn zeta. split; [vm_compute; reflexivity |]. split; reflexivity. Qed.
